(** * gi.Async: the future object of gi/pygi-async.c

    A shallow embedding of the C implementation of [gi._gi.Async] and the
    properties of its state machine, callback registry, completion handler
    and await protocol.

    The C code runs against the CPython C API and the asyncio event loop.
    Both are outside the file; the part of their documented behaviour the
    code relies on is modelled below (error indicator, argument formats,
    the loop's ready queue), and everything that is a decision of the
    host (what a comparison answers, whether a call raises) is a field of
    the [Host] class.  The code is modelled for Python >= 3.7, the branch
    of every [#if PY_VERSION_HEX >= 0x03070000]. *)

From Stdlib Require Import List ZArith String Ascii Bool Arith Lia Permutation.
From Equations Require Import Equations.
Import ListNotations.

Set Implicit Arguments.
Open Scope string_scope.
Open Scope list_scope.

(** ** Python objects *)

(** A [PyObject *] is known by what the code can observe of it.  Objects
    the code only passes around are [PyHeap] addresses; pointer equality
    of the C code is equality of these terms.  Tuples are known by their
    items, because the C API looks into them where the code hands over a
    value ([PyObject_CallFunction], [PyErr_SetObject]). *)
#[warnings="-register-all"]
Inductive PyObject : Type :=
| Py_None
| PyBool (b : bool)
| PyLong (n : Z)
| PyUnicode (s : string)
| PyType (tp_name : string)
| PyModule (md_name : string)
| PyContext (snapshot : nat)
| PyMethod (im_self : PyObject) (im_name : string)
| PyTuple (items : list PyObject)
| PyHeap (addr : nat).

Fixpoint PyObject_eq_dec (a b : PyObject) {struct a} : {a = b} + {a <> b}.
Proof.
  decide equality;
    try solve [apply string_dec | apply Z.eq_dec | apply Nat.eq_dec
              | apply Bool.bool_dec].
  apply (list_eq_dec PyObject_eq_dec).
Defined.

Definition same_object (a b : PyObject) : bool :=
  if PyObject_eq_dec a b then true else false.

Definition PyExc_TypeError : PyObject := PyType "TypeError".
Definition PyExc_SystemError : PyObject := PyType "SystemError".
Definition PyExc_StopIteration : PyObject := PyType "StopIteration".
Definition PyExc_SystemExit : PyObject := PyType "SystemExit".

(** [PyTuple_Check] *)
Definition PyTuple_Check (o : PyObject) : bool :=
  match o with
  | PyTuple _ => true
  | _ => false
  end.

(** Module statics resolved by [pygi_async_register_types]. *)
Definition asyncio_InvalidStateError : PyObject :=
  PyType "asyncio.exceptions.InvalidStateError".
Definition asyncio_get_event_loop : PyObject :=
  PyMethod (PyModule "asyncio.events") "get_event_loop".

(** The error indicator of the thread state: exception type and value
    (the traceback is not observed by this file). *)
Record PyErr : Type := mkPyErr {
  ptype : PyObject;
  pvalue : option PyObject
}.

Inductive PyResult (A : Type) : Type :=
| Ok (a : A)
| Raise (e : PyErr).
Arguments Ok {A} a.
Arguments Raise {A} e.

(** What the event loop keeps for a [call_soon (callback, *args,
    context=...)] it accepted: [h_context] is the [context] keyword it was
    given, [None] when the call carried no such keyword (the loop then
    runs the callback in whatever context is current at scheduling
    time). *)
Record Handle : Type := mkHandle {
  h_loop : PyObject;
  h_callback : PyObject;
  h_args : list PyObject;
  h_context : option PyObject
}.

Inductive RefOp : Type :=
| Incref (o : PyObject)
| Decref (o : PyObject).

(** A Python-level call made by the code: callee, positional arguments and
    keyword arguments (NULL is [None]). *)
Record CallRecord : Type := mkCall {
  callee : PyObject;
  call_args : list PyObject;
  call_kwargs : option (list (string * PyObject))
}.

(** ** The interpreter state the code reads and writes *)
Record Interp : Type := mkInterp {
  initialized : bool;                  (* Py_IsInitialized () *)
  gilstate : nat;                      (* PyGILState_Ensure minus Release *)
  curexc : option PyErr;               (* the error indicator *)
  current_context : nat;               (* which context the thread is in *)
  ready : list Handle;                 (* the loop's ready queue *)
  stderr : list PyErr;                 (* what PyErr_PrintEx reported *)
  refops : list RefOp;                 (* Py_INCREF / Py_DECREF performed *)
  called : list CallRecord;            (* Python callables the code called *)
  cancellable_info : option PyObject;  (* static, resolved lazily *)
  finalized : bool                     (* Py_FinalizeEx is through: the thread
                                          states are gone *)
}.

Definition set_gilstate (x : nat) (st : Interp) : Interp :=
  mkInterp (initialized st) x (curexc st) (current_context st)
           (ready st) (stderr st) (refops st) (called st) (cancellable_info st)
           (finalized st).

Definition set_curexc (x : option PyErr) (st : Interp) : Interp :=
  mkInterp (initialized st) (gilstate st) x (current_context st)
           (ready st) (stderr st) (refops st) (called st) (cancellable_info st)
           (finalized st).

Definition set_ready (x : list Handle) (st : Interp) : Interp :=
  mkInterp (initialized st) (gilstate st) (curexc st) (current_context st)
           x (stderr st) (refops st) (called st) (cancellable_info st)
           (finalized st).

Definition set_stderr (x : list PyErr) (st : Interp) : Interp :=
  mkInterp (initialized st) (gilstate st) (curexc st) (current_context st)
           (ready st) x (refops st) (called st) (cancellable_info st)
           (finalized st).

Definition set_refops (x : list RefOp) (st : Interp) : Interp :=
  mkInterp (initialized st) (gilstate st) (curexc st) (current_context st)
           (ready st) (stderr st) x (called st) (cancellable_info st)
           (finalized st).

Definition set_called (x : list CallRecord) (st : Interp) : Interp :=
  mkInterp (initialized st) (gilstate st) (curexc st) (current_context st)
           (ready st) (stderr st) (refops st) x (cancellable_info st)
           (finalized st).

Definition set_cancellable_info (x : option PyObject) (st : Interp) : Interp :=
  mkInterp (initialized st) (gilstate st) (curexc st) (current_context st)
           (ready st) (stderr st) (refops st) (called st) x (finalized st).

(** ** The host: decisions taken outside this file *)
Class Host : Type := {
  (* Py_TYPE (o) *)
  Py_TYPE : PyObject -> PyObject;
  (* o1 == o2 as Python evaluates it on two distinct objects, with no
     error pending *)
  tp_richcompare_eq : PyObject -> PyObject -> PyResult bool;
  (* whether o1 == o2 is answered by an __eq__ written in Python, which
     the interpreter calls, or by a comparison slot written in C *)
  tp_richcompare_in_python : PyObject -> PyObject -> bool;
  (* getattr (o, name) *)
  tp_getattr : PyObject -> string -> PyResult PyObject;
  (* calling a callable with positional arguments *)
  tp_call : PyObject -> list PyObject -> PyResult PyObject;
  (* PyType_IsSubtype (a, b) *)
  PyType_IsSubtype : PyObject -> PyObject -> bool;
  (* isinstance (o, cls) *)
  tp_isinstance : PyObject -> PyObject -> PyResult bool;
  (* import of a module by name *)
  import_module : string -> PyResult PyObject;
  (* the loop's answer to call_soon, given its ready queue *)
  loop_call_soon : list Handle -> Handle -> PyResult PyObject;
  (* _wrap_g_callable_info_invoke: return value and error indicator *)
  g_callable_info_invoke : PyObject -> list PyObject -> option PyObject * option PyErr;
  (* _pygi_g_base_info_get_fullname *)
  g_base_info_get_fullname : PyObject -> string;
  (* pygobject_new_full: the wrapper of a GObject pointer *)
  pygobject_new_full : nat -> PyObject
}.

(** ** A monad for code that threads the interpreter state

    A C function either returns, leaving a new interpreter state, or the
    process ends in it (a failed [g_assert], a NULL dereference, an
    exit). *)
Inductive Exec (A : Type) : Type :=
| Done (a : A) (st : Interp)
| Crash (why : string).
Arguments Done {A} a st.
Arguments Crash {A} why.

Definition Py (A : Type) : Type := Interp -> Exec A.

Definition ret {A : Type} (a : A) : Py A := fun st => Done a st.

Definition bind {A B : Type} (m : Py A) (k : A -> Py B) : Py B :=
  fun st =>
    match m st with
    | Done a st' => k a st'
    | Crash why => Crash why
    end.

Definition crash {A : Type} (why : string) : Py A := fun _ => Crash why.

Declare Scope py_scope.
Delimit Scope py_scope with py.
Notation "x <- m ;; k" := (bind m (fun x => k))
  (at level 100, m at next level, right associativity) : py_scope.
Notation "m ;;; k" := (bind m (fun _ => k))
  (at level 100, right associativity) : py_scope.
Open Scope py_scope.

(** ** The slice of the C API the file uses *)

Definition Py_INCREF (o : PyObject) : Py unit :=
  fun st => Done tt (set_refops (refops st ++ [Incref o]) st).

Definition Py_DECREF (o : PyObject) : Py unit :=
  fun st => Done tt (set_refops (refops st ++ [Decref o]) st).

Definition Py_XDECREF (o : option PyObject) : Py unit :=
  match o with
  | Some p => Py_DECREF p
  | None => ret tt
  end.

(** [Py_CLEAR (p)]: drop the reference and set the variable to NULL; the
    value returned is the new content of the variable. *)
Definition Py_CLEAR {A : Type} (p : option A) : option A := None.

Definition PyErr_SetString (type : PyObject) (msg : string) : Py unit :=
  fun st => Done tt (set_curexc (Some (mkPyErr type (Some (PyUnicode msg)))) st).

Definition PyErr_SetObject (type value : PyObject) : Py unit :=
  fun st => Done tt (set_curexc (Some (mkPyErr type (Some value))) st).

Definition PyErr_Occurred : Py bool :=
  fun st => Done (match curexc st with Some _ => true | None => false end) st.

(** [PyErr_Fetch]: hand the indicator to the caller and clear it. *)
Definition PyErr_Fetch : Py (option PyErr) :=
  fun st => Done (curexc st) (set_curexc None st).

(** [PyContext_CopyCurrent]: a snapshot of the context the thread is in. *)
Definition PyContext_CopyCurrent : Py PyObject :=
  fun st => Done (PyContext (current_context st)) st.

(** [PyUnicode_FromFormat] for the directive the file uses: [%s] takes the
    next C string, any other character is copied. *)
Fixpoint PyUnicode_FromFormat (format : string) (cargs : list string) : string :=
  match format with
  | EmptyString => EmptyString
  | String c rest =>
      match c, rest with
      | "%"%char, String "s"%char rest' =>
          match cargs with
          | a :: more => a ++ PyUnicode_FromFormat rest' more
          | [] => PyUnicode_FromFormat rest' []
          end
      | _, _ => String c (PyUnicode_FromFormat rest cargs)
      end
  end.

(** A Python dict with string keys, as the keyword arguments of a call. *)
Definition PyDict : Type := list (string * PyObject).

Definition PyDict_New : option PyDict := Some [].

Fixpoint PyDict_GetItemString (d : PyDict) (key : string) : option PyObject :=
  match d with
  | [] => None
  | (k, v) :: rest => if String.eqb k key then Some v else PyDict_GetItemString rest key
  end.

Definition PyDict_SetItemString (d : option PyDict) (key : string) (v : PyObject)
  : option PyDict :=
  match d with
  | Some items =>
      Some (filter (fun kv => negb (String.eqb (fst kv) key)) items ++ [(key, v)])
  | None => None
  end.

(** [Py_BuildValue ("(OO)", a, b)]: the argument tuple of two objects. *)
Definition Py_BuildValue_OO (a b : PyObject) : list PyObject := [a; b].
Definition Py_BuildValue_O (a : PyObject) : list PyObject := [a].

(** The format scanner behind [Py_BuildValue] and [PyObject_CallFunction]:
    every character of the format is a format unit that consumes one C
    argument, a separator that is skipped, or not a format character at
    all, in which case the scanner raises SystemError.  Nesting and the
    [#] and [&] modifiers are not used by this file and are rejected
    here. *)
Inductive FormatChar : Type :=
| UnitChar
| SkipChar
| BadChar.

Definition classify_format_char (c : ascii) : FormatChar :=
  if existsb (Ascii.eqb c)
       (list_ascii_of_string "bBhiHInlkLKufdDcCszUyNSO")
  then UnitChar
  else if existsb (Ascii.eqb c) [":"%char; ","%char; " "%char; "009"%char]
  then SkipChar
  else BadChar.

Fixpoint format_units (format : string) : option nat :=
  match format with
  | EmptyString => Some 0
  | String c rest =>
      match classify_format_char c, format_units rest with
      | UnitChar, Some n => Some (S n)
      | SkipChar, Some n => Some n
      | _, _ => None
      end
  end.

(** The argument stack a format builds from the C arguments that follow
    it.  The file only ever passes objects; a format that asks for more
    arguments than were passed reads past the end of the C argument list
    and yields nothing usable. *)
Definition Py_VaBuildStack (format : string) (cargs : list PyObject)
  : PyResult (list PyObject) :=
  match format_units format with
  | Some n =>
      if Nat.eqb n (List.length cargs) then Ok cargs
      else Raise (mkPyErr PyExc_SystemError
                    (Some (PyUnicode "format does not match the C arguments")))
  | None =>
      Raise (mkPyErr PyExc_SystemError
               (Some (PyUnicode "bad format char passed to Py_BuildValue")))
  end.

Section CAPI.
Context `{Host}.

Definition PyExceptionInstance_Class (e : PyObject) : PyObject :=
  Py_TYPE e.

(** [PyErr_GivenExceptionMatches] on two classes. *)
Definition PyErr_GivenExceptionMatches (err exc : PyObject) : bool :=
  same_object err exc || PyType_IsSubtype err exc.

(** [PyErr_PrintEx]: write the pending error to stderr and clear the
    indicator; a pending SystemExit is not printed, the interpreter exits
    on it ([handle_system_exit], outside of [python -i]). *)
Definition PyErr_PrintEx (set_sys_last_vars : bool) : Py unit :=
  fun st =>
    match curexc st with
    | Some e =>
        if PyErr_GivenExceptionMatches (ptype e) PyExc_SystemExit
        then Crash "Py_Exit"
        else Done tt (set_curexc None (set_stderr (stderr st ++ [e]) st))
    | None => Done tt st
    end.

(** Lift an answer of the host into the C convention: NULL (here [None])
    with the error indicator set when it raised. *)
Definition of_result {A : Type} (r : PyResult A) : Py (option A) :=
  fun st =>
    match r with
    | Ok a => Done (Some a) st
    | Raise e => Done None (set_curexc (Some e) st)
    end.

Definition PyObject_GetAttrString (o : option PyObject) (name : string)
  : Py (option PyObject) :=
  match o with
  | Some p => of_result (tp_getattr p name)
  | None => crash "PyObject_GetAttrString: NULL object"
  end.

(** [PyObject_Call (callable, args, kwargs)].  The bound method
    [loop.call_soon] is the scheduler's deferred-invocation primitive: when
    the loop accepts the call, a handle for [(callback, args)] joins the
    ready queue, with the [context] keyword if one was passed.  Any other
    callable is the host's.  The answers are those of a call that is
    entered with no error pending, which is how the interpreter enters
    the methods of the type and how GLib enters the handler. *)
Definition PyObject_Call (callable : PyObject) (args : list PyObject)
    (kwargs : option PyDict) : Py (option PyObject) :=
  fun st0 =>
    let st := set_called (called st0 ++ [mkCall callable args kwargs]) st0 in
    match callable, args with
    | PyMethod l name, cb :: rest =>
        if String.eqb name "call_soon" then
          let h := mkHandle l cb rest
                     (match kwargs with
                      | Some d => PyDict_GetItemString d "context"
                      | None => None
                      end) in
          match loop_call_soon (ready st) h with
          | Ok r => Done (Some r) (set_ready (ready st ++ [h]) st)
          | Raise e => Done None (set_curexc (Some e) st)
          end
        else of_result (tp_call callable args) st
    | _, _ => of_result (tp_call callable args) st
    end.

Definition PyObject_CallObject (callable : PyObject) (args : option (list PyObject))
  : Py (option PyObject) :=
  PyObject_Call callable (match args with Some a => a | None => [] end) None.

(** The positional arguments made of the stack a format built: a stack of
    one object that is a tuple is taken as the argument tuple itself, so
    [PyObject_CallFunction (f, "O", t)] calls [f] on the items of [t]. *)
Definition call_arguments (stack : list PyObject) : list PyObject :=
  match stack with
  | [PyTuple items] => items
  | _ => stack
  end.

(** [PyObject_CallFunction (callable, format, ...)]: a NULL or empty format
    calls without arguments, any other format goes through the scanner. *)
Definition PyObject_CallFunction (callable : PyObject) (format : string)
    (cargs : list PyObject) : Py (option PyObject) :=
  match format with
  | EmptyString => PyObject_Call callable [] None
  | _ =>
      match Py_VaBuildStack format cargs with
      | Ok stack => PyObject_Call callable (call_arguments stack) None
      | Raise e => of_result (Raise e)
      end
  end.

(** The error the interpreter makes of a Python-level call that returns
    while an error is pending ([_Py_CheckFunctionResult]). *)
Definition result_with_error_set : PyErr :=
  mkPyErr PyExc_SystemError (Some (PyUnicode "returned a result with an error set")).

(** [PyObject_RichCompareBool (v, w, Py_EQ)]: 1 for the same object without
    asking it, else 1 or 0 as [v == w] answers, and -1 with the error
    indicator set when the comparison raised.  An [__eq__] written in
    Python is called by the interpreter, and a call that returns while an
    error is pending is turned into a failure: with the indicator set on
    entry such a comparison answers -1 whatever [__eq__] returned. *)
Definition PyObject_RichCompareBool_EQ (v w : PyObject) : Py Z :=
  fun st =>
    if same_object v w then Done 1%Z st
    else match tp_richcompare_eq v w with
         | Ok b =>
             match curexc st with
             | Some _ =>
                 if tp_richcompare_in_python v w
                 then Done (-1)%Z (set_curexc (Some result_with_error_set) st)
                 else Done (if b then 1%Z else 0%Z) st
             | None => Done (if b then 1%Z else 0%Z) st
             end
         | Raise e => Done (-1)%Z (set_curexc (Some e) st)
         end.

(** [PyObject_IsInstance]: 1, 0, or -1 with the error indicator set. *)
Definition PyObject_IsInstance (inst cls : PyObject) : Py Z :=
  fun st =>
    match tp_isinstance inst cls with
    | Ok true => Done 1%Z st
    | Ok false => Done 0%Z st
    | Raise e => Done (-1)%Z (set_curexc (Some e) st)
    end.

Definition PyImport_ImportModule (name : string) : Py (option PyObject) :=
  of_result (import_module name).

(** What the interpreter makes of a C function's return, as it does after
    every call of a method implemented in C: a result together with a
    pending error is turned into SystemError, as is NULL without one. *)
Inductive PyOutcome : Type :=
| Returns (v : PyObject)
| Raises (e : PyErr).

Definition Py_CheckFunctionResult (r : option PyObject) (st : Interp) : PyOutcome :=
  match r, curexc st with
  | Some v, None => Returns v
  | None, Some e => Raises e
  | Some _, Some _ => Raises result_with_error_set
  | None, None =>
      Raises (mkPyErr PyExc_SystemError
                (Some (PyUnicode "returned NULL without setting an error")))
  end.

End CAPI.

(** ** The future *)

Record PyGIAsyncCallback : Type := mkCallback {
  func : PyObject;
  context : PyObject
}.

(** The fields are the ones the code dereferences; pointers that may be
    NULL are options, [callbacks] is the [GArray *].  [ob_self] is the
    address of the object itself. *)
Record PyGIAsync : Type := mkAsync {
  ob_self : PyObject;
  finish_func : option PyObject;
  cancellable : option PyObject;
  loop : option PyObject;
  result : option PyObject;
  exception : option PyObject;
  callbacks : option (list PyGIAsyncCallback);
  _asyncio_future_blocking : bool
}.

(** [self->result || self->exception] *)
Definition is_done (self : PyGIAsync) : bool :=
  match result self, exception self with
  | None, None => false
  | _, _ => true
  end.

(** The three states of the future, read off the two pointers. *)
Definition Pending (self : PyGIAsync) : Prop :=
  result self = None /\ exception self = None.
Definition Resolved (self : PyGIAsync) (v : PyObject) : Prop :=
  result self = Some v /\ exception self = None.
Definition Rejected (self : PyGIAsync) (e : PyObject) : Prop :=
  result self = None /\ exception self = Some e.

Definition set_result (r : option PyObject) (self : PyGIAsync) : PyGIAsync :=
  mkAsync (ob_self self) (finish_func self) (cancellable self) (loop self)
          r (exception self) (callbacks self) (_asyncio_future_blocking self).

Definition set_exception (e : option PyObject) (self : PyGIAsync) : PyGIAsync :=
  mkAsync (ob_self self) (finish_func self) (cancellable self) (loop self)
          (result self) e (callbacks self) (_asyncio_future_blocking self).

Definition set_callbacks (c : option (list PyGIAsyncCallback)) (self : PyGIAsync)
  : PyGIAsync :=
  mkAsync (ob_self self) (finish_func self) (cancellable self) (loop self)
          (result self) (exception self) c (_asyncio_future_blocking self).

Definition set_asyncio_future_blocking (b : bool) (self : PyGIAsync) : PyGIAsync :=
  mkAsync (ob_self self) (finish_func self) (cancellable self) (loop self)
          (result self) (exception self) (callbacks self) b.

Definition set_finish_func (f : option PyObject) (self : PyGIAsync) : PyGIAsync :=
  mkAsync (ob_self self) f (cancellable self) (loop self)
          (result self) (exception self) (callbacks self)
          (_asyncio_future_blocking self).

Definition set_cancellable (c : option PyObject) (self : PyGIAsync) : PyGIAsync :=
  mkAsync (ob_self self) (finish_func self) c (loop self)
          (result self) (exception self) (callbacks self)
          (_asyncio_future_blocking self).

Definition set_loop (l : option PyObject) (self : PyGIAsync) : PyGIAsync :=
  mkAsync (ob_self self) (finish_func self) (cancellable self) l
          (result self) (exception self) (callbacks self)
          (_asyncio_future_blocking self).

(** [g_array_remove_index]: drop the element at [i], keeping the order. *)
Definition g_array_remove_index {A : Type} (arr : list A) (i : nat) : list A :=
  firstn i arr ++ skipn (S i) arr.

Section Async.
Context `{Host}.

Definition async_repr (self : PyGIAsync) : PyObject :=
  PyUnicode
    (PyUnicode_FromFormat "gi.Async(finish_func=%s, done=%s)"
       [ match finish_func self with
         | Some f => g_base_info_get_fullname f
         | None => ""
         end
       ; if is_done self then "True" else "False" ]).

Definition async_done (self : PyGIAsync) : PyObject :=
  PyBool (is_done self).

Definition async_result (self : PyGIAsync) : Py (option PyObject) :=
  match result self, exception self with
  | None, None =>
      PyErr_SetString asyncio_InvalidStateError "Async task is still running!" ;;;
      ret None
  | Some r, _ =>
      Py_INCREF r ;;;
      ret (Some r)
  | None, Some e =>
      PyErr_SetObject (PyExceptionInstance_Class e) e ;;;
      ret None
  end.

Definition async_exception (self : PyGIAsync) : Py (option PyObject) :=
  match result self, exception self with
  | None, None =>
      PyErr_SetString asyncio_InvalidStateError "Async task is still running!" ;;;
      ret None
  | _, _ =>
      let res := match exception self with
                 | Some e => e
                 | None => Py_None
                 end in
      Py_INCREF res ;;;
      ret (Some res)
  end.

Definition call_soon (self : PyGIAsync) (cb : PyGIAsyncCallback)
  : Py (option PyObject) :=
  meth <- PyObject_GetAttrString (loop self) "call_soon" ;;
  match meth with
  | None => ret None
  | Some meth =>
      let args := Py_BuildValue_OO (func cb) (ob_self self) in
      let kwargs := PyDict_New in
      let kwargs := PyDict_SetItemString kwargs "context" (context cb) in
      let kwargs := Py_CLEAR kwargs in
      r <- PyObject_Call meth args kwargs ;;
      (* Py_CLEAR (args) frees the tuple, Py_CLEAR (call_soon) the method *)
      Py_DECREF meth ;;;
      ret r
  end.

(** ["O|$O:add_done_callback"] with keywords [{"", "context"}]: exactly one
    positional object and an optional keyword-only [context]. *)
Definition parse_add_done_callback (args : list PyObject) (kwargs : PyDict)
  : PyResult (PyObject * option PyObject) :=
  match args with
  | [f] =>
      if existsb (fun kv => negb (String.eqb (fst kv) "context")) kwargs
      then Raise (mkPyErr PyExc_TypeError
                    (Some (PyUnicode "add_done_callback() got an unexpected keyword argument")))
      else Ok (f, PyDict_GetItemString kwargs "context")
  | _ =>
      Raise (mkPyErr PyExc_TypeError
               (Some (PyUnicode "add_done_callback() takes exactly 1 positional argument")))
  end.

Definition async_add_done_callback (self : PyGIAsync) (args : list PyObject)
    (kwargs : PyDict) : Py (option PyObject * PyGIAsync) :=
  match parse_add_done_callback args kwargs with
  | Raise e => fun st => Done (None, self) (set_curexc (Some e) st)
  | Ok (f, c) =>
      Py_INCREF f ;;;
      ctx <- match c with
             | None => PyContext_CopyCurrent
             | Some c => Py_INCREF c ;;; ret c
             end ;;
      let callback := mkCallback f ctx in
      if is_done self then
        res <- call_soon self callback ;;
        Py_DECREF (func callback) ;;;
        Py_DECREF (context callback) ;;;
        match res with
        | Some r => Py_DECREF r ;;; Py_INCREF Py_None ;;; ret (Some Py_None, self)
        | None => ret (None, self)
        end
      else
        let arr := match callbacks self with
                   | Some arr => arr
                   | None => []
                   end in
        Py_INCREF Py_None ;;;
        ret (Some Py_None, set_callbacks (Some (arr ++ [callback])) self)
  end.

Definition release_callback (cb : PyGIAsyncCallback) : Py unit :=
  Py_DECREF (func cb) ;;;
  Py_DECREF (context cb).

(** The [while] loop of [async_remove_done_callback], on the array, the
    index [i] and the counter [removed]. *)
Equations? remove_done_callback_loop (fn : PyObject)
    (arr : list PyGIAsyncCallback) (i : nat) (removed : Z) (st : Interp)
  : Exec (list PyGIAsyncCallback * Z) by wf (List.length arr - i) lt :=
  remove_done_callback_loop fn arr i removed st with lt_dec i (List.length arr) := {
    | right _ := Done (arr, removed) st
    | left Hlt with nth_error arr i := {
        | None := Crash "g_array_index out of bounds"
        | Some cb with PyObject_RichCompareBool_EQ (func cb) fn st := {
            | Crash why := Crash why
            | Done r st1 with Z.eqb r 1 := {
                | true with release_callback cb st1 := {
                    | Crash why := Crash why
                    | Done _ st2 :=
                        remove_done_callback_loop fn (g_array_remove_index arr i) i
                          (removed + 1) st2 }
                | false := remove_done_callback_loop fn arr (S i) removed st1 } } } }.
Proof.
  - unfold g_array_remove_index.
    rewrite length_app, length_firstn, length_skipn. lia.
  - lia.
Qed.

Definition async_remove_done_callback (self : PyGIAsync) (fn : PyObject)
  : Py (option PyObject * PyGIAsync) :=
  fun st =>
    match callbacks self with
    | None => Done (Some (PyLong 0), self) st
    | Some arr =>
        match remove_done_callback_loop fn arr 0 0 st with
        | Done (arr', removed) st' =>
            Done (Some (PyLong removed), set_callbacks (Some arr') self) st'
        | Crash why => Crash why
        end
    end.

Definition async_await (self : PyGIAsync) : Py (option PyObject * PyGIAsync) :=
  let self' := if negb (is_done self)
               then set_asyncio_future_blocking true self
               else self in
  Py_INCREF (ob_self self) ;;;
  ret (Some (ob_self self), self').

Definition async_iternext (self : PyGIAsync) : Py (option PyObject) :=
  match result self, exception self with
  | None, None =>
      Py_INCREF (ob_self self) ;;;
      ret (Some (ob_self self))
  | _, Some e =>
      PyErr_SetObject (PyExceptionInstance_Class e) e ;;;
      ret None
  | Some r, None =>
      PyErr_SetObject PyExc_StopIteration r ;;;
      ret None
  end.

Definition PyGICallableInfo_Type : PyObject := PyType "gi.CallableInfo".
Definition PyGObject_Type : PyObject := PyType "gi._gi.GObject".

(** [PyObject_TypeCheck], the test behind an ["O!"] argument. *)
Definition PyObject_TypeCheck (o type : PyObject) : bool :=
  same_object (Py_TYPE o) type || PyType_IsSubtype (Py_TYPE o) type.

(** ["O!|$O!:gi._gi.Async.__init__"] with keywords [{"finish_func",
    "cancellable"}], in the order of [PyArg_ParseTupleAndKeywords]: the
    number of arguments is checked first; then the arguments are converted
    one after the other, each stored into its field of [self] as soon as
    it is converted; keywords that are left over are looked at last, when
    the fields are already written. *)
Definition parse_init (self : PyGIAsync) (args : list PyObject) (kwargs : PyDict)
  : PyResult PyGIAsync * PyGIAsync :=
  let bad msg := Raise (mkPyErr PyExc_TypeError (Some (PyUnicode msg))) in
  if Nat.ltb 2 (List.length args + List.length kwargs)
  then (bad "gi._gi.Async.__init__() takes at most 2 arguments", self)
  else
    match
      match args with
      | f :: _ => Some f
      | [] => PyDict_GetItemString kwargs "finish_func"
      end
    with
    | None =>
        (bad "gi._gi.Async.__init__() missing required argument 'finish_func' (pos 1)",
         self)
    | Some f =>
        if PyObject_TypeCheck f PyGICallableInfo_Type then
          let self1 := set_finish_func (Some f) self in
          if Nat.ltb 1 (List.length args)
          then (bad "gi._gi.Async.__init__() takes exactly 1 positional argument", self1)
          else
            let leftover (s : PyGIAsync) :=
              if match args with
                 | _ :: _ =>
                     match PyDict_GetItemString kwargs "finish_func" with
                     | Some _ => true
                     | None => false
                     end
                 | [] => false
                 end
              then (bad "argument for gi._gi.Async.__init__() given by name ('finish_func') and position (1)",
                    s)
              else if existsb (fun kv => negb (String.eqb (fst kv) "finish_func"
                                                 || String.eqb (fst kv) "cancellable"))
                        kwargs
              then (bad "invalid keyword argument for gi._gi.Async.__init__()", s)
              else (Ok s, s) in
            match PyDict_GetItemString kwargs "cancellable" with
            | None => leftover self1
            | Some c =>
                if PyObject_TypeCheck c PyGObject_Type
                then leftover (set_cancellable (Some c) self1)
                else (bad "argument 'cancellable' must be gi._gi.GObject", self1)
            end
        else (bad "argument 'finish_func' must be gi.CallableInfo", self)
    end.

(** The lazy import of [Gio.Cancellable] into the static. *)
Definition resolve_cancellable_info : Py (option PyObject) :=
  fun st =>
    match cancellable_info st with
    | Some c => Done (Some c) st
    | None =>
        (gio <- PyImport_ImportModule "gi.repository.Gio" ;;
         match gio with
         | None => ret None
         | Some gio =>
             c <- PyObject_GetAttrString (Some gio) "Cancellable" ;;
             Py_DECREF gio ;;;
             fun st' => Done c (set_cancellable_info c st')
         end) st
    end.

Definition async_init (self : PyGIAsync) (args : list PyObject) (kwargs : PyDict)
  : Py (Z * PyGIAsync) :=
  match parse_init self args kwargs with
  | (Raise e, self0) => fun st => Done ((-1)%Z, self0) (set_curexc (Some e) st)
  | (Ok self0, _) =>
      info <- resolve_cancellable_info ;;
      match info with
      | None => ret ((-1)%Z, self0)
      | Some info =>
          checked <-
            match cancellable self0 with
            | Some c =>
                res <- PyObject_IsInstance c info ;;
                if Z.eqb res (-1) then ret (inr self0)
                else if Z.eqb res 0 then
                  PyErr_SetString PyExc_TypeError
                    "cancellable argument needs to be of type Gio.Cancellable" ;;;
                  ret (inr self0)
                else ret (inl self0)
            | None =>
                c <- PyObject_CallObject info None ;;
                ret (inl (set_cancellable c self0))
            end ;;
          match checked with
          | inr self1 => ret ((-1)%Z, self1)
          | inl self1 =>
              l <- PyObject_CallObject asyncio_get_event_loop None ;;
              let self2 := set_loop l self1 in
              match l with
              | None => ret ((-1)%Z, self2)
              | Some _ => ret (0%Z, self2)
              end
          end
      end
  end.

(** ** The completion handler *)

(** [PyGILState_Ensure] needs the thread states of the interpreter: they
    are there while it is initialized and, on the thread that finalizes
    it, until [Py_FinalizeEx] is through; after that the call runs into
    freed state. *)
Definition PyGILState_Ensure : Py unit :=
  fun st =>
    if negb (initialized st) && finalized st
    then Crash "PyGILState_Ensure: no thread state"
    else Done tt (set_gilstate (S (gilstate st)) st).

Definition PyGILState_Release : Py unit :=
  fun st => Done tt (set_gilstate (pred (gilstate st)) st).

Definition Py_IsInitialized : Py bool :=
  fun st => Done (initialized st) st.

Definition _wrap_g_callable_info_invoke (info : option PyObject)
    (args : list PyObject) : Py (option PyObject) :=
  match info with
  | None => crash "_wrap_g_callable_info_invoke: NULL info"
  | Some f =>
      fun st =>
        let (r, e) := g_callable_info_invoke f args in
        Done r (match e with
                | Some _ => set_curexc e st
                | None => st
                end)
  end.

(** The [for] loop over [self->callbacks]: the array is not changed while
    it runs, so the index walks the list. *)
Fixpoint notify_callbacks (self : PyGIAsync) (cbs : list PyGIAsyncCallback)
  : Py unit :=
  match cbs with
  | [] => ret tt
  | cb :: rest =>
      occurred <- PyErr_Occurred ;;
      (if negb occurred then
         r <- call_soon self cb ;;
         match r with
         | None => PyErr_PrintEx false
         | Some r => Py_DECREF r
         end
       else ret tt) ;;;
      Py_DECREF (func cb) ;;;
      Py_DECREF (context cb) ;;;
      notify_callbacks self rest
  end.

(** The branch taken when the finish function left an error.  The
    traceback that [PyErr_Fetch] also hands out is only released again and
    is not part of [PyErr]. *)
Definition store_exception (self : PyGIAsync) (r : option PyObject)
  : Py PyGIAsync :=
  fetched <- PyErr_Fetch ;;
  match fetched with
  | None => crash "PyErr_Fetch: no error"
  | Some e =>
      let exc := ptype e in
      let value := pvalue e in
      Py_XDECREF r ;;;
      exc_val <- match value with
                 | None => PyObject_CallFunction exc "" []
                 | Some v => PyObject_CallFunction exc "O" [v]
                 end ;;
      exc_val <- match exc_val with
                 | None =>
                     PyObject_CallFunction PyExc_TypeError
                       "Invalid exception from _finish function call!" []
                 | Some _ => ret exc_val
                 end ;;
      match exc_val with
      | None => crash "g_assert (exc_val)"
      | Some _ =>
          let self' := set_exception exc_val self in
          Py_XDECREF (Some exc) ;;;
          Py_XDECREF value ;;;
          Py_XDECREF r ;;;
          ret self'
      end
  end.

Definition pygi_async_finish_cb (source_object : option nat) (res : nat)
    (self : PyGIAsync) : Py PyGIAsync :=
  PyGILState_Ensure ;;;
  alive <- Py_IsInitialized ;;
  if negb alive then
    PyGILState_Release ;;;
    ret self
  else
    let res_pyobj := pygobject_new_full res in
    let source_pyobj := option_map pygobject_new_full source_object in
    let args := match source_pyobj with
                | Some s => Py_BuildValue_OO s res_pyobj
                | None => Py_BuildValue_O res_pyobj
                end in
    r <- _wrap_g_callable_info_invoke (finish_func self) args ;;
    Py_XDECREF (Some res_pyobj) ;;;
    Py_XDECREF source_pyobj ;;;
    (* Py_XDECREF (args) frees the tuple *)
    occurred <- PyErr_Occurred ;;
    self1 <- (if occurred then store_exception self r
              else ret (set_result r self)) ;;
    match callbacks self1 with
    | Some cbs => notify_callbacks self1 cbs
    | None => ret tt
    end ;;;
    let self2 := set_callbacks None self1 in
    Py_DECREF (ob_self self2) ;;;
    PyGILState_Release ;;;
    ret self2.

(** ** Notions used to state the properties *)

(** A loop that provides the deferred-invocation primitive. *)
Definition provides_call_soon (l : PyObject) : Prop :=
  tp_getattr l "call_soon" = Ok (PyMethod l "call_soon").

(** The comparison of two distinct objects raises. *)
Definition comparison_raises (v w : PyObject) : Prop :=
  same_object v w = false /\ exists e, tp_richcompare_eq v w = Raise e.

(** What [PyObject_RichCompareBool (v, w, Py_EQ) == 1] decides. *)
Definition compares_equal (v w : PyObject) : bool :=
  same_object v w
  || match tp_richcompare_eq v w with
     | Ok true => true
     | _ => false
     end.

(** The argument tuple the handler builds for the finish function. *)
Definition finish_args (source_object : option nat) (res : nat) : list PyObject :=
  match option_map pygobject_new_full source_object with
  | Some s => Py_BuildValue_OO s (pygobject_new_full res)
  | None => Py_BuildValue_O (pygobject_new_full res)
  end.

(** The arguments the class of a fetched error is called with to make
    the instance: the value, spread when it is a tuple; none without a
    value. *)
Definition exception_args (value : option PyObject) : list PyObject :=
  match value with
  | Some v => call_arguments [v]
  | None => []
  end.

(** An error that is SystemExit, on which [PyErr_PrintEx] exits. *)
Definition is_system_exit (e : PyErr) : bool :=
  PyErr_GivenExceptionMatches (ptype e) PyExc_SystemExit.

(** A loop none of whose answers to the handler is SystemExit: neither
    the lookup of [call_soon], nor the scheduler, nor whatever else the
    attribute turns out to be. *)
Definition loop_never_exits (l : PyObject) : Prop :=
  (forall e, tp_getattr l "call_soon" = Raise e -> is_system_exit e = false)
  /\ (forall q h e, loop_call_soon q h = Raise e -> is_system_exit e = false)
  /\ (forall m args e,
        tp_getattr l "call_soon" = Ok m ->
        tp_call m args = Raise e -> is_system_exit e = false).

(** Whether an error is pending. *)
Definition is_pending (st : Interp) : bool :=
  match curexc st with
  | Some _ => true
  | None => false
  end.

(** What [PyObject_RichCompareBool (v, w, Py_EQ) == 1] decides when it is
    asked with or without an error pending. *)
Definition answers_equal (pending : bool) (v w : PyObject) : bool :=
  same_object v w
  || (negb (pending && tp_richcompare_in_python v w)
      && match tp_richcompare_eq v w with
         | Ok true => true
         | _ => false
         end).

(** Whether an error is pending after that comparison. *)
Definition pending_after (pending : bool) (v w : PyObject) : bool :=
  pending
  || (negb (same_object v w)
      && match tp_richcompare_eq v w with
         | Raise _ => true
         | Ok _ => false
         end).

(** The removal loop read as one pass over the registry: the entries it
    leaves, the entries it takes out, and whether an error is pending at
    the end. *)
Fixpoint removal_scan (fn : PyObject) (pending : bool)
    (l : list PyGIAsyncCallback)
  : list PyGIAsyncCallback * list PyGIAsyncCallback * bool :=
  match l with
  | [] => ([], [], pending)
  | cb :: rest =>
      let '(kept, gone, final) :=
        removal_scan fn (pending_after pending (func cb) fn) rest in
      if answers_equal pending (func cb) fn
      then (kept, cb :: gone, final)
      else (cb :: kept, gone, final)
  end.

(** [_PyGen_FetchStopIterationValue]: what the coroutine awaiting an
    iterator receives when [__next__] ends with StopIteration pending.
    The indicator is fetched; an instance gives its [value]; a value that
    was set in place of an instance is taken as it is, unless it is a
    tuple: then the instance is made first, as StopIteration of the items,
    whose [value] is the first item, or None without items.  (Subclasses
    of StopIteration are instantiated by the host.) *)
Definition PyGen_FetchStopIterationValue : Py (option PyObject) :=
  fun st =>
    match curexc st with
    | None => Done (Some Py_None) st
    | Some e =>
        if PyErr_GivenExceptionMatches (ptype e) PyExc_StopIteration then
          let st1 := set_curexc None st in
          match pvalue e with
          | None => Done (Some Py_None) st1
          | Some ev =>
              if PyObject_TypeCheck ev (ptype e)
              then of_result (tp_getattr ev "value") st1
              else if same_object (ptype e) PyExc_StopIteration
              then match ev with
                   | PyTuple [] => Done (Some Py_None) st1
                   | PyTuple (first :: _) => Done (Some first) st1
                   | _ => Done (Some ev) st1
                   end
              else match tp_call (ptype e) (call_arguments [ev]) with
                   | Ok inst => of_result (tp_getattr inst "value") st1
                   | Raise e' => Done None (set_curexc (Some e') st1)
                   end
          end
        else Done None st
    end.

End Async.

(** ** A concrete host and concrete futures

    One event loop, three finish functions, a handful of callbacks and
    two candidate cancellation tokens, used to run the code. *)
Module Scenario.

Definition the_loop : PyObject := PyHeap 1.
Definition the_future : PyObject := PyHeap 50.

(* finish functions: returns 42; raises ValueError ("bad"); raises a
   UnicodeDecodeError instance, a class that cannot be instantiated from
   one argument *)
Definition read_finish : PyObject := PyHeap 10.
Definition failing_finish : PyObject := PyHeap 11.
Definition decode_finish : PyObject := PyHeap 12.
(* a finish function with out arguments, which returns a tuple, as
   Gio.File.load_contents_finish does: (ok, contents) *)
Definition contents_finish : PyObject := PyHeap 13.
Definition the_contents : PyObject := PyTuple [PyBool true; PyUnicode "data"].

Definition ValueError : PyObject := PyType "ValueError".
Definition UnicodeDecodeError : PyObject := PyType "UnicodeDecodeError".
Definition the_value_error : PyObject := PyHeap 200.
Definition the_decode_error : PyObject := PyHeap 201.

(* callbacks: two ordinary ones; one the loop refuses to schedule; one
   whose __eq__ raises; one that is a distinct object equal to cb1 *)
Definition cb1 : PyObject := PyHeap 101.
Definition cb2 : PyObject := PyHeap 102.
Definition cb_refused : PyObject := PyHeap 103.
Definition cb_eq_raises : PyObject := PyHeap 104.
Definition cb1_twin : PyObject := PyHeap 105.

Definition ctxA : PyObject := PyContext 7.

Definition Cancellable : PyObject := PyType "Gio.Cancellable".
Definition a_cancellable : PyObject := PyHeap 300.
Definition a_gobject : PyObject := PyHeap 301.
Definition fresh_cancellable : PyObject := PyHeap 302.

Definition refused : PyErr :=
  mkPyErr (PyType "RuntimeError") (Some (PyUnicode "Event loop is closed")).
Definition eq_failed : PyErr :=
  mkPyErr ValueError (Some (PyUnicode "cannot compare")).

Definition host : Host :=
  Build_Host
    (* Py_TYPE *)
    (fun o =>
       if same_object o the_value_error then ValueError
       else if same_object o a_cancellable then Cancellable
       else if same_object o fresh_cancellable then Cancellable
       else if same_object o a_gobject then PyGObject_Type
       else if same_object o read_finish then PyGICallableInfo_Type
       else if same_object o failing_finish then PyGICallableInfo_Type
       else if same_object o decode_finish then PyGICallableInfo_Type
       else PyType "object")
    (* tp_richcompare_eq *)
    (fun v w =>
       if same_object v cb_eq_raises then Raise eq_failed
       else if same_object v cb1_twin && same_object w cb1 then Ok true
       else if same_object v cb1 && same_object w cb1_twin then Ok true
       else Ok false)
    (* tp_richcompare_in_python: the two callbacks that define __eq__ *)
    (fun v w => same_object v cb_eq_raises || same_object v cb1_twin)
    (* tp_getattr *)
    (fun o name =>
       if same_object o the_loop && String.eqb name "call_soon"
       then Ok (PyMethod the_loop "call_soon")
       else if same_object o (PyModule "gi.repository.Gio")
               && String.eqb name "Cancellable"
       then Ok Cancellable
       else Raise (mkPyErr (PyType "AttributeError") (Some (PyUnicode name))))
    (* tp_call *)
    (fun f args =>
       if same_object f Cancellable then
         match args with
         | [] => Ok fresh_cancellable
         | _ => Raise (mkPyErr PyExc_TypeError None)
         end
       else if same_object f asyncio_get_event_loop then Ok the_loop
       else if same_object f ValueError then Ok the_value_error
       else Raise (mkPyErr PyExc_TypeError
                     (Some (PyUnicode "function takes exactly 5 arguments (1 given)"))))
    (* PyType_IsSubtype *)
    (fun a b => same_object a Cancellable && same_object b PyGObject_Type)
    (* tp_isinstance *)
    (fun o cls =>
       Ok (same_object cls Cancellable
           && (same_object o a_cancellable || same_object o fresh_cancellable)))
    (* import_module *)
    (fun name => Ok (PyModule name))
    (* loop_call_soon *)
    (fun q h =>
       if same_object (h_callback h) cb_refused then Raise refused
       else Ok (PyHeap (400 + List.length q)))
    (* g_callable_info_invoke *)
    (fun f args =>
       if same_object f read_finish then (Some (PyLong 42), None)
       else if same_object f contents_finish then (Some the_contents, None)
       else if same_object f failing_finish
       then (None, Some (mkPyErr ValueError (Some (PyUnicode "bad"))))
       else (None, Some (mkPyErr UnicodeDecodeError (Some the_decode_error))))
    (* g_base_info_get_fullname *)
    (fun f =>
       if same_object f read_finish then "Gio.File.read_finish"
       else "Gio.File.other_finish")
    (* pygobject_new_full *)
    (fun p => PyHeap (1000 + p)).

(* an interpreter that is up, with no error pending and an empty loop *)
Definition st0 : Interp := mkInterp true 0 None 3 [] [] [] [] None false.

(* the same interpreter once Gio.Cancellable has been imported *)
Definition st_resolved : Interp :=
  mkInterp true 0 None 3 [] [] [Decref (PyModule "gi.repository.Gio")] []
           (Some Cancellable) false.

(* a pending future as async_init leaves it *)
Definition pending (finish : PyObject) (cbs : option (list PyGIAsyncCallback))
  : PyGIAsync :=
  mkAsync the_future (Some finish) (Some a_cancellable) (Some the_loop)
          None None cbs false.

Definition resolved : PyGIAsync :=
  mkAsync the_future (Some read_finish) (Some a_cancellable) (Some the_loop)
          (Some (PyLong 42)) None None false.

Definition rejected : PyGIAsync :=
  mkAsync the_future (Some failing_finish) (Some a_cancellable) (Some the_loop)
          None (Some the_value_error) None false.

(* a zeroed object, as tp_alloc returns it *)
Definition allocated : PyGIAsync :=
  mkAsync the_future None None None None None None false.

End Scenario.

(** ** The rest of the type: cancel and construction from C *)

Definition PyExc_MemoryError : PyObject := PyType "MemoryError".

(** [null_error]: SystemError, unless an error is pending already. *)
Definition null_error : Py (option PyObject) :=
  fun st =>
    Done None
      (match curexc st with
       | Some _ => st
       | None =>
           set_curexc
             (Some (mkPyErr PyExc_SystemError
                      (Some (PyUnicode "null argument to internal routine")))) st
       end).

Definition RefOp_eq_dec (a b : RefOp) : {a = b} + {a <> b}.
Proof. decide equality; apply PyObject_eq_dec. Defined.

(** How many references to [o] a registry owns: one for every entry that
    has [o] as its callback and one for every entry that has it as its
    context. *)
Definition owned (o : PyObject) (cbs : list PyGIAsyncCallback) : nat :=
  count_occ PyObject_eq_dec (flat_map (fun cb => [func cb; context cb]) cbs) o.

(** How many times [o] is released in a log of reference operations. *)
Definition released (o : PyObject) (ops : list RefOp) : nat :=
  count_occ RefOp_eq_dec ops (Decref o).

Section AsyncRest.
Context `{Host}.

(** [PyObject_CallMethod (obj, name, format, ...)]: a NULL object is
    answered with [null_error]; otherwise the attribute is looked up,
    called like [PyObject_CallFunction] and released. *)
Definition PyObject_CallMethod (obj : option PyObject) (name format : string)
    (cargs : list PyObject) : Py (option PyObject) :=
  match obj with
  | None => null_error
  | Some o =>
      callable <- PyObject_GetAttrString (Some o) name ;;
      match callable with
      | None => ret None
      | Some callable =>
          retval <- PyObject_CallFunction callable format cargs ;;
          Py_DECREF callable ;;;
          ret retval
      end
  end.

(** [async_cancel]; the NULL format is the empty one. *)
Definition async_cancel (self : PyGIAsync) : Py (option PyObject) :=
  PyObject_CallMethod (cancellable self) "cancel" "" [].

(** [tp_alloc]: a zeroed object at the address the allocator found, or
    NULL with MemoryError when it found none. *)
Definition tp_alloc (addr : option PyObject) : Py (option PyGIAsync) :=
  match addr with
  | Some a => ret (Some (mkAsync a None None None None None None false))
  | None =>
      fun st => Done None (set_curexc (Some (mkPyErr PyExc_MemoryError None)) st)
  end.

(** [pygi_async_new]: allocate, run [tp_init] on [(finish_func,)] without
    looking at what it returns, and return the object. *)
Definition pygi_async_new (addr : option PyObject) (finish : PyObject)
  : Py (option PyGIAsync) :=
  res <- tp_alloc addr ;;
  match res with
  | Some res =>
      let args := Py_BuildValue_O finish in
      init <- async_init res args [] ;;
      (* Py_DECREF (args) frees the tuple *)
      ret (Some (snd init))
  | None => ret None
  end.

(** [n] calls of [__next__] in a row, with what each returned. *)
Fixpoint iternext_times (n : nat) (self : PyGIAsync) : Py (list (option PyObject)) :=
  match n with
  | O => ret []
  | S n =>
      r <- async_iternext self ;;
      rs <- iternext_times n self ;;
      ret (r :: rs)
  end.

(** The references an entry of the registry owns. *)
Definition entry_release (cb : PyGIAsyncCallback) : list RefOp :=
  [Decref (func cb); Decref (context cb)].

(** The handle [loop.call_soon (func, self)] leaves in the ready queue. *)
Definition handle_of (l : PyObject) (self : PyGIAsync) (cb : PyGIAsyncCallback)
  : Handle :=
  mkHandle l (func cb) [ob_self self] None.

(** A loop that accepts every callback it is handed. *)
Definition accepts_all : Prop :=
  forall q h, exists r, loop_call_soon q h = Ok r.

End AsyncRest.

(** A host like [Scenario.host] whose cancellable has a [cancel] method
    and whose loop accepts every callback. *)
Module Scenario2.

Definition cancel_method : PyObject := PyMethod Scenario.a_cancellable "cancel".

Definition host : Host :=
  Build_Host
    (Py_TYPE (Host := Scenario.host))
    (tp_richcompare_eq (Host := Scenario.host))
    (tp_richcompare_in_python (Host := Scenario.host))
    (fun o name =>
       if same_object o Scenario.a_cancellable && String.eqb name "cancel"
       then Ok cancel_method
       else tp_getattr (Host := Scenario.host) o name)
    (fun f args =>
       if same_object f cancel_method then Ok Py_None
       else tp_call (Host := Scenario.host) f args)
    (PyType_IsSubtype (Host := Scenario.host))
    (tp_isinstance (Host := Scenario.host))
    (import_module (Host := Scenario.host))
    (fun q h => Ok (PyHeap (400 + List.length q)))
    (g_callable_info_invoke (Host := Scenario.host))
    (g_base_info_get_fullname (Host := Scenario.host))
    (pygobject_new_full (Host := Scenario.host)).

(* the same host when the loop answers call_soon with SystemExit *)
Definition exit_request : PyErr := mkPyErr PyExc_SystemExit (Some (PyLong 3)).

Definition host_exits : Host :=
  Build_Host
    (Py_TYPE (Host := host))
    (tp_richcompare_eq (Host := host))
    (tp_richcompare_in_python (Host := host))
    (tp_getattr (Host := host))
    (tp_call (Host := host))
    (PyType_IsSubtype (Host := host))
    (tp_isinstance (Host := host))
    (import_module (Host := host))
    (fun q h => Raise exit_request)
    (g_callable_info_invoke (Host := host))
    (g_base_info_get_fullname (Host := host))
    (pygobject_new_full (Host := host)).


(* a future that is done, on a loop object without call_soon *)
Definition on_dead_loop : PyGIAsync :=
  mkAsync Scenario.the_future (Some Scenario.read_finish)
          (Some Scenario.a_cancellable) (Some (PyHeap 2))
          (Some (PyLong 42)) None None false.

End Scenario2.

(** The rendering of the debug string as the specification words it,
    without the [gi.] prefix. *)
Definition spec_repr (name : string) (done : bool) : string :=
  "Async(finish_func=" ++ name ++ ", done="
    ++ (if done then "True" else "False") ++ ")".

(** The error both accessors raise on a pending future. *)
Definition InvalidState : PyErr :=
  mkPyErr asyncio_InvalidStateError (Some (PyUnicode "Async task is still running!")).

(** * Properties *)

(** The parse, case by case. *)
Ltac parse_init_cases :=
  repeat match goal with
         | |- context [if ?c then _ else _] => destruct c eqn:?
         | |- context [match ?x with Some _ => _ | None => _ end] =>
             destruct x eqn:?
         | |- context [match ?x with [] => _ | _ :: _ => _ end] =>
             destruct x eqn:?
         end.

Lemma same_object_refl (a : PyObject) : same_object a a = true.
Proof. unfold same_object. destruct (PyObject_eq_dec a a); congruence. Qed.

Lemma same_object_true (a b : PyObject) : same_object a b = true -> a = b.
Proof. unfold same_object. destruct (PyObject_eq_dec a b); congruence. Qed.

Lemma same_object_false (a b : PyObject) : same_object a b = false -> a <> b.
Proof. unfold same_object. destruct (PyObject_eq_dec a b); congruence. Qed.

Lemma is_done_false_iff (self : PyGIAsync) : is_done self = false <-> Pending self.
Proof.
  unfold is_done, Pending.
  destruct (result self), (exception self); split; intros Hx;
    try discriminate; try (destruct Hx; discriminate); auto.
Qed.

Lemma Resolved_is_done (self : PyGIAsync) (v : PyObject) :
  Resolved self v -> is_done self = true.
Proof. unfold Resolved, is_done. intros [Hr _]. rewrite Hr. reflexivity. Qed.

Lemma Rejected_is_done (self : PyGIAsync) (e : PyObject) :
  Rejected self e -> is_done self = true.
Proof. unfold Rejected, is_done. intros [Hr He]. rewrite Hr, He. reflexivity. Qed.

Section Accessors.
Context `{Host}.

(** C9 (as amended): the debug string of a future is exactly
    [gi.Async(finish_func=<finisher-name>, done=<True|False>)], with the
    [gi.] prefix, and the done field is [False] exactly while the future is
    pending, [True] once it holds a result or an exception. *)
Theorem async_repr_renders (self : PyGIAsync) (f : PyObject) :
  finish_func self = Some f ->
  async_repr self
  = PyUnicode ("gi.Async(finish_func=" ++ g_base_info_get_fullname f
                 ++ ", done=" ++ (if is_done self then "True" else "False") ++ ")")
  /\ (is_done self = false <-> Pending self).
Proof.
  intros Hf. split.
  - unfold async_repr. rewrite Hf. simpl. reflexivity.
  - apply is_done_false_iff.
Qed.

(** C3: while the future is pending, [result ()] and [exception ()] return
    NULL with InvalidStateError in the error indicator; once it is
    resolved with V, [result ()] returns V itself and [exception ()]
    returns None, and no error is set; once it is rejected with E,
    [result ()] returns NULL with E itself in the error indicator (under
    E's class) and [exception ()] returns E.  Neither accessor writes to
    the future and the interpreter state is arbitrary, so this holds at
    every call. *)
Theorem async_result_exception_by_state (self : PyGIAsync) (st : Interp) :
  (Pending self ->
     (exists st',
         async_result self st = Done None st'
         /\ curexc st' = Some InvalidState /\ refops st' = refops st)
     /\ (exists st',
            async_exception self st = Done None st'
            /\ curexc st' = Some InvalidState /\ refops st' = refops st))
  /\ (forall V, Resolved self V ->
        (exists st',
            async_result self st = Done (Some V) st'
            /\ curexc st' = curexc st /\ refops st' = refops st ++ [Incref V])
        /\ (exists st',
               async_exception self st = Done (Some Py_None) st'
               /\ curexc st' = curexc st
               /\ refops st' = refops st ++ [Incref Py_None]))
  /\ (forall E, Rejected self E ->
        (exists st',
            async_result self st = Done None st'
            /\ curexc st' = Some (mkPyErr (Py_TYPE E) (Some E))
            /\ refops st' = refops st)
        /\ (exists st',
               async_exception self st = Done (Some E) st'
               /\ curexc st' = curexc st /\ refops st' = refops st ++ [Incref E])).
Proof.
  destruct self as [o ff c l r e cbs b].
  unfold Pending, Resolved, Rejected, async_result, async_exception; simpl.
  split; [| split].
  - intros [-> ->]. split; eexists; (split; [reflexivity |]); split; reflexivity.
  - intros V [-> ->]. split; eexists; (split; [reflexivity |]); split; reflexivity.
  - intros E [-> ->]. split; eexists; (split; [reflexivity |]); split; reflexivity.
Qed.

End Accessors.

Lemma async_repr_renders_witness :
  finish_func Scenario.resolved = Some Scenario.read_finish
  /\ async_repr (H := Scenario.host) Scenario.resolved
     = PyUnicode "gi.Async(finish_func=Gio.File.read_finish, done=True)".
Proof.
  split; [reflexivity |].
  exact (proj1 (async_repr_renders (H := Scenario.host) Scenario.resolved
                  (f := Scenario.read_finish) eq_refl)).
Defined.

(** C9 as stated fails: the string starts with [gi.Async(], not
    [Async(]. *)
Lemma async_repr_is_not_spec_repr :
  ~ (forall (H : Host) (self : PyGIAsync) (f : PyObject),
        finish_func self = Some f ->
        async_repr self
        = PyUnicode (spec_repr (g_base_info_get_fullname f) (is_done self))).
Proof.
  intros Hclaim.
  specialize (Hclaim Scenario.host Scenario.resolved Scenario.read_finish eq_refl).
  vm_compute in Hclaim. discriminate Hclaim.
Qed.

Lemma async_result_exception_by_state_witness :
  (Pending (Scenario.pending Scenario.read_finish None)
   /\ (exists st',
          async_result (H := Scenario.host)
            (Scenario.pending Scenario.read_finish None) Scenario.st0
          = Done None st'
          /\ curexc st'
             = Some (mkPyErr (PyType "asyncio.exceptions.InvalidStateError")
                       (Some (PyUnicode "Async task is still running!")))
          /\ refops st' = [])
   /\ (exists st',
          async_exception (Scenario.pending Scenario.read_finish None) Scenario.st0
          = Done None st'
          /\ curexc st'
             = Some (mkPyErr (PyType "asyncio.exceptions.InvalidStateError")
                       (Some (PyUnicode "Async task is still running!")))
          /\ refops st' = []))
  /\ (Resolved Scenario.resolved (PyLong 42)
      /\ (exists st',
             async_result (H := Scenario.host) Scenario.resolved Scenario.st0
             = Done (Some (PyLong 42)) st'
             /\ curexc st' = None /\ refops st' = [Incref (PyLong 42)])
      /\ (exists st',
             async_exception Scenario.resolved Scenario.st0
             = Done (Some Py_None) st'
             /\ curexc st' = None /\ refops st' = [Incref Py_None]))
  /\ (Rejected Scenario.rejected Scenario.the_value_error
      /\ (exists st',
             async_result (H := Scenario.host) Scenario.rejected Scenario.st0
             = Done None st'
             /\ curexc st'
                = Some (mkPyErr Scenario.ValueError (Some Scenario.the_value_error))
             /\ refops st' = [])
      /\ (exists st',
             async_exception Scenario.rejected Scenario.st0
             = Done (Some Scenario.the_value_error) st'
             /\ curexc st' = None
             /\ refops st' = [Incref Scenario.the_value_error])).
Proof.
  assert (Hp : Pending (Scenario.pending Scenario.read_finish None))
    by (split; reflexivity).
  assert (Hr : Resolved Scenario.resolved (PyLong 42)) by (split; reflexivity).
  assert (Hj : Rejected Scenario.rejected Scenario.the_value_error)
    by (split; reflexivity).
  split; [| split].
  - split; [exact Hp |].
    exact (proj1 (@async_result_exception_by_state Scenario.host
                    (Scenario.pending Scenario.read_finish None) Scenario.st0) Hp).
  - split; [exact Hr |].
    exact (proj1 (proj2 (@async_result_exception_by_state Scenario.host
                           Scenario.resolved Scenario.st0)) (PyLong 42) Hr).
  - split; [exact Hj |].
    exact (proj2 (proj2 (@async_result_exception_by_state Scenario.host
                           Scenario.rejected Scenario.st0))
             Scenario.the_value_error Hj).
Defined.

(** ** Await protocol *)

Section Await.
Context `{Host}.

(** [__await__] returns the future itself, with a new reference, and
    raises the blocking flag exactly when the future is not done; no other
    field is written and no error is set. *)
Lemma async_await_returns_self (self : PyGIAsync) (st : Interp) :
  exists self' st',
    async_await self st = Done (Some (ob_self self), self') st'
    /\ (Pending self -> _asyncio_future_blocking self' = true)
    /\ (is_done self = true ->
        _asyncio_future_blocking self' = _asyncio_future_blocking self)
    /\ ob_self self' = ob_self self
    /\ result self' = result self
    /\ exception self' = exception self
    /\ callbacks self' = callbacks self
    /\ curexc st' = curexc st
    /\ refops st' = refops st ++ [Incref (ob_self self)].
Proof.
  unfold async_await, bind, Py_INCREF, ret.
  eexists _, _. split; [reflexivity |].
  split; [intros Hp; apply is_done_false_iff in Hp; rewrite Hp; reflexivity |].
  split; [intros Hd; rewrite Hd; reflexivity |].
  destruct (is_done self); simpl; repeat split.
Qed.

(** [__next__] by state: the future itself while it is pending;
    StopIteration set with the stored value once it is resolved; the
    stored exception set, under its class, once it is rejected. *)
Lemma async_iternext_by_state (self : PyGIAsync) (st : Interp) :
  (Pending self ->
     exists st',
       async_iternext self st = Done (Some (ob_self self)) st'
       /\ curexc st' = curexc st
       /\ refops st' = refops st ++ [Incref (ob_self self)])
  /\ (forall V, Resolved self V ->
        exists st',
          async_iternext self st = Done None st'
          /\ curexc st' = Some (mkPyErr PyExc_StopIteration (Some V)))
  /\ (forall E, Rejected self E ->
        exists st',
          async_iternext self st = Done None st'
          /\ curexc st' = Some (mkPyErr (Py_TYPE E) (Some E))).
Proof.
  split; [| split].
  - intros [Hr He]. unfold async_iternext. rewrite Hr, He.
    eexists. split; [reflexivity |]. split; reflexivity.
  - intros V [Hr He]. unfold async_iternext. rewrite Hr, He.
    eexists. split; reflexivity.
  - intros E [Hr He]. unfold async_iternext. rewrite Hr, He.
    eexists. split; reflexivity.
Qed.

(** A resolved value that is neither a tuple nor a StopIteration instance
    reaches the awaiting coroutine as it is. *)
Lemma stop_signal_carries_plain_value (self : PyGIAsync) (V : PyObject)
    (st : Interp) :
  Resolved self V ->
  PyTuple_Check V = false ->
  PyObject_TypeCheck V PyExc_StopIteration = false ->
  exists st' st'',
    async_iternext self st = Done None st'
    /\ PyGen_FetchStopIterationValue st' = Done (Some V) st''
    /\ curexc st'' = None.
Proof.
  intros [Hr He] Htuple Hinst. unfold async_iternext. rewrite Hr, He.
  unfold bind, PyErr_SetObject, ret. eexists _, _. split; [reflexivity |].
  unfold PyGen_FetchStopIterationValue, PyErr_GivenExceptionMatches. simpl.
  rewrite Hinst.
  destruct V; try discriminate Htuple; split; reflexivity.
Qed.

End Await.

(** C7 (code defect): the stop-signal is set with [PyErr_SetObject
    (PyExc_StopIteration, self->result)], and a value that is a tuple is
    taken there as the arguments of the exception and not as its value.
    Run: a future completed by a finish function that returns the tuple
    [(True, "data")]; [result ()] returns that tuple, but the coroutine
    that awaits the future receives its first item, [True].  The rest of
    the protocol is as claimed, on the same futures: [__await__] returns
    the future and raises the blocking flag on a pending future and not
    on one that is done, [__next__] returns the future while it is
    pending, hands over a resolved value that is not a tuple, and sets
    the stored exception on a rejected one. *)
Theorem async_iternext_stop_signal_unpacks_tuple :
  (exists self st1 st2 st3 st4,
      pygi_async_finish_cb (H := Scenario.host) None 5
        (Scenario.pending Scenario.contents_finish None) Scenario.st0
      = Done self st1
      /\ Resolved self Scenario.the_contents
      /\ async_result (H := Scenario.host) self st1
         = Done (Some Scenario.the_contents) st2
      /\ async_iternext (H := Scenario.host) self st1 = Done None st3
      /\ curexc st3
         = Some (mkPyErr PyExc_StopIteration (Some Scenario.the_contents))
      /\ PyGen_FetchStopIterationValue (H := Scenario.host) st3
         = Done (Some (PyBool true)) st4
      /\ PyBool true <> Scenario.the_contents)
  /\ (exists self' st',
         async_await (Scenario.pending Scenario.read_finish None) Scenario.st0
         = Done (Some Scenario.the_future, self') st'
         /\ _asyncio_future_blocking self' = true
         /\ Pending self')
  /\ (exists self' st',
         async_await Scenario.resolved Scenario.st0
         = Done (Some Scenario.the_future, self') st'
         /\ _asyncio_future_blocking self' = false
         /\ Resolved self' (PyLong 42))
  /\ (exists st',
         async_iternext (H := Scenario.host)
           (Scenario.pending Scenario.read_finish None) Scenario.st0
         = Done (Some Scenario.the_future) st'
         /\ curexc st' = None)
  /\ (exists st' st'',
         async_iternext (H := Scenario.host) Scenario.resolved Scenario.st0
         = Done None st'
         /\ curexc st' = Some (mkPyErr PyExc_StopIteration (Some (PyLong 42)))
         /\ PyGen_FetchStopIterationValue (H := Scenario.host) st'
            = Done (Some (PyLong 42)) st'')
  /\ (exists st',
         async_iternext (H := Scenario.host) Scenario.rejected Scenario.st0
         = Done None st'
         /\ curexc st'
            = Some (mkPyErr Scenario.ValueError (Some Scenario.the_value_error))).
Proof.
  split; [| split; [| split; [| split; [| split]]]].
  - do 5 eexists.
    split; [vm_compute; reflexivity |].
    split; [split; reflexivity |].
    split; [vm_compute; reflexivity |].
    split; [vm_compute; reflexivity |].
    split; [reflexivity |].
    split; [vm_compute; reflexivity | discriminate].
  - do 2 eexists. split; [vm_compute; reflexivity |].
    split; [reflexivity | split; reflexivity].
  - do 2 eexists. split; [vm_compute; reflexivity |].
    split; [reflexivity | split; reflexivity].
  - eexists. split; [vm_compute; reflexivity | reflexivity].
  - do 2 eexists. split; [vm_compute; reflexivity |].
    split; [reflexivity | vm_compute; reflexivity].
  - eexists. split; [vm_compute; reflexivity | reflexivity].
Qed.

(** ** Callback registry *)

Section Registry.
Context `{Host}.

(** What [call_soon] does on such a loop: one call of [loop.call_soon]
    with the arguments [(func, self)] and NULL keyword arguments; the
    handle the loop keeps therefore has no context of its own. *)
Lemma call_soon_on_loop (self : PyGIAsync) (cb : PyGIAsyncCallback)
    (l : PyObject) (st : Interp) :
  loop self = Some l ->
  provides_call_soon l ->
  call_soon self cb st
  = let h := mkHandle l (func cb) [ob_self self] None in
    let st1 := set_called
                 (called st ++ [mkCall (PyMethod l "call_soon")
                                  [func cb; ob_self self] None]) st in
    let released s :=
      set_refops (refops s ++ [Decref (PyMethod l "call_soon")]) s in
    match loop_call_soon (ready st) h with
    | Ok r => Done (Some r) (released (set_ready (ready st ++ [h]) st1))
    | Raise e => Done None (released (set_curexc (Some e) st1))
    end.
Proof.
  intros Hl Hattr. unfold call_soon, bind, PyObject_GetAttrString, of_result.
  rewrite Hl, Hattr. unfold PyObject_Call, Py_BuildValue_OO, Py_CLEAR. simpl.
  destruct (loop_call_soon (ready st) _); reflexivity.
Qed.


End Registry.


(** C4 (code defect): the context given to [add_done_callback] is stored
    with the callback, but [call_soon] clears the keyword dictionary before
    the call, so [loop.call_soon] receives no [context] and the handle in
    the ready queue carries none.  Run: a pending future,
    [add_done_callback (cb1, context=ctxA)], then completion. *)
Theorem captured_context_is_not_passed_to_call_soon :
  exists self1 st1 self2 st2,
    async_add_done_callback (H := Scenario.host)
      (Scenario.pending Scenario.read_finish None)
      [Scenario.cb1] [("context", Scenario.ctxA)] Scenario.st0
    = Done (Some Py_None, self1) st1
    /\ callbacks self1 = Some [mkCallback Scenario.cb1 Scenario.ctxA]
    /\ pygi_async_finish_cb (H := Scenario.host) None 5 self1 st1 = Done self2 st2
    /\ called st2
       = [mkCall (PyMethod Scenario.the_loop "call_soon")
            [Scenario.cb1; Scenario.the_future] None]
    /\ ready st2
       = [mkHandle Scenario.the_loop Scenario.cb1 [Scenario.the_future] None].
Proof.
  do 4 eexists.
  split; [vm_compute; reflexivity |].
  split; [reflexivity |].
  split; [vm_compute; reflexivity |].
  split; reflexivity.
Qed.

Section Removal.
Context `{Host}.


(** Whatever is pending, an answer of 1 means that the two compare
    equal. *)
Lemma answers_equal_compares_equal (p : bool) (v w : PyObject) :
  answers_equal p v w = true -> compares_equal v w = true.
Proof.
  unfold answers_equal, compares_equal.
  destruct (same_object v w); [reflexivity |]. simpl.
  destruct (negb _); simpl; [auto | discriminate].
Qed.

(** A comparison that does not answer 1 does not answer 1 either once an
    error is pending. *)
Lemma answers_equal_later (p q : bool) (v w : PyObject) :
  (p = true -> q = true) ->
  answers_equal p v w = false -> answers_equal q v w = false.
Proof.
  destruct p, q; intros Hpq; try (specialize (Hpq eq_refl); discriminate);
    try (intros Hx; exact Hx).
  unfold answers_equal. destruct (same_object v w); simpl; [discriminate |].
  intros ->. apply Bool.andb_false_r.
Qed.

Lemma pending_after_stays (p : bool) (v w : PyObject) :
  p = true -> pending_after p v w = true.
Proof. intros ->. reflexivity. Qed.

Lemma pending_after_raises (p : bool) (v w : PyObject) :
  comparison_raises v w -> pending_after p v w = true /\ answers_equal p v w = false.
Proof.
  unfold comparison_raises, pending_after, answers_equal.
  intros [-> [e ->]]. simpl. split; [apply Bool.orb_true_r | apply Bool.andb_false_r].
Qed.


(** One comparison: what it answers, what it leaves pending, and that it
    touches nothing else. *)
Lemma PyObject_RichCompareBool_EQ_run (v w : PyObject) (st : Interp) :
  exists z st',
    PyObject_RichCompareBool_EQ v w st = Done z st'
    /\ Z.eqb z 1 = answers_equal (is_pending st) v w
    /\ is_pending st' = pending_after (is_pending st) v w
    /\ ready st' = ready st /\ called st' = called st /\ stderr st' = stderr st
    /\ gilstate st' = gilstate st /\ refops st' = refops st.
Proof.
  unfold PyObject_RichCompareBool_EQ, answers_equal, pending_after, is_pending.
  destruct (same_object v w); simpl.
  - eexists _, _. split; [reflexivity |]. rewrite Bool.orb_false_r. repeat split.
  - destruct (tp_richcompare_eq v w) as [b | e].
    + destruct (curexc st) as [pe |] eqn:Hc; simpl.
      * destruct (tp_richcompare_in_python v w); simpl.
        -- eexists _, _. split; [reflexivity |]. repeat split.
        -- eexists _, _. split; [reflexivity |]. rewrite Hc.
           destruct b; repeat split.
      * eexists _, _. split; [reflexivity |]. rewrite Hc.
        destruct b; repeat split.
    + eexists _, _. split; [reflexivity |]. simpl.
      rewrite Bool.andb_false_r, Bool.orb_true_r. repeat split.
Qed.



Lemma nth_error_skipn_cons {A : Type} (arr : list A) (i : nat) (x : A) :
  nth_error arr i = Some x -> skipn i arr = x :: skipn (S i) arr.
Proof.
  revert i. induction arr as [| a arr IH]; intros [| i] Hn; simpl in *;
    try discriminate.
  - injection Hn as ->. reflexivity.
  - apply IH. exact Hn.
Qed.

Lemma firstn_S_nth_error {A : Type} (arr : list A) (i : nat) (x : A) :
  nth_error arr i = Some x -> firstn (S i) arr = firstn i arr ++ [x].
Proof.
  revert i. induction arr as [| a arr IH]; intros [| i] Hn; simpl in *;
    try discriminate.
  - injection Hn as ->. reflexivity.
  - f_equal. apply IH. exact Hn.
Qed.

Lemma firstn_g_array_remove_index {A : Type} (arr : list A) (i : nat) :
  i <= List.length arr -> firstn i (g_array_remove_index arr i) = firstn i arr.
Proof.
  intros Hi. unfold g_array_remove_index.
  rewrite firstn_app, length_firstn, Nat.min_l by assumption.
  rewrite Nat.sub_diag, firstn_O, app_nil_r.
  apply firstn_all2. rewrite length_firstn. lia.
Qed.

Lemma skipn_g_array_remove_index {A : Type} (arr : list A) (i : nat) :
  i <= List.length arr -> skipn i (g_array_remove_index arr i) = skipn (S i) arr.
Proof.
  intros Hi. unfold g_array_remove_index.
  rewrite skipn_app, length_firstn, Nat.min_l by assumption.
  rewrite Nat.sub_diag, skipn_O.
  rewrite skipn_all2 by (rewrite length_firstn; lia). reflexivity.
Qed.

(** ** The scan *)

Lemma removal_scan_cons (fn : PyObject) (p : bool) (cb : PyGIAsyncCallback)
    (rest : list PyGIAsyncCallback) :
  removal_scan fn p (cb :: rest)
  = let s := removal_scan fn (pending_after p (func cb) fn) rest in
    if answers_equal p (func cb) fn
    then (fst (fst s), cb :: snd (fst s), snd s)
    else (cb :: fst (fst s), snd (fst s), snd s).
Proof.
  simpl. destruct (removal_scan fn _ rest) as [[kept gone] final].
  reflexivity.
Qed.


Lemma removal_scan_stays_pending (fn : PyObject) (l : list PyGIAsyncCallback) :
  forall p, p = true -> snd (removal_scan fn p l) = true.
Proof.
  induction l as [| cb rest IH]; intros p Hp; [exact Hp |].
  rewrite removal_scan_cons. cbv zeta.
  destruct (answers_equal p (func cb) fn); simpl;
    apply IH; apply pending_after_stays; exact Hp.
Qed.

Lemma removal_scan_raises (fn : PyObject) (l : list PyGIAsyncCallback) :
  forall p,
    (exists cb, In cb l /\ comparison_raises (func cb) fn) ->
    snd (removal_scan fn p l) = true.
Proof.
  induction l as [| cb rest IH]; intros p (cb' & Hin & Hbad); [contradiction |].
  rewrite removal_scan_cons. cbv zeta.
  assert (Hend : snd (removal_scan fn (pending_after p (func cb) fn) rest) = true).
  { destruct Hin as [<- | Hin].
    - apply removal_scan_stays_pending.
      apply (@pending_after_raises p _ _ Hbad).
    - apply IH. exists cb'. split; assumption. }
  destruct (answers_equal p (func cb) fn); exact Hend.
Qed.

(** An entry that raises is among the entries left. *)
Lemma removal_scan_keeps_raising (fn : PyObject) (l : list PyGIAsyncCallback) :
  forall p cb,
    In cb l -> comparison_raises (func cb) fn ->
    In cb (fst (fst (removal_scan fn p l))).
Proof.
  induction l as [| cb0 rest IH]; intros p cb Hin Hbad; [contradiction |].
  rewrite removal_scan_cons. cbv zeta.
  destruct Hin as [<- | Hin].
  - rewrite (proj2 (@pending_after_raises p _ _ Hbad)). left. reflexivity.
  - destruct (answers_equal p (func cb0) fn); simpl;
      [| right]; apply IH; assumption.
Qed.



(** Scanning again what a scan left, with at least the errors it left,
    takes nothing out. *)
Lemma removal_scan_again (fn : PyObject) (l : list PyGIAsyncCallback) :
  forall p q,
    (snd (removal_scan fn p l) = true -> q = true) ->
    fst (removal_scan fn q (fst (fst (removal_scan fn p l))))
    = (fst (fst (removal_scan fn p l)), []).
Proof.
  induction l as [| cb rest IH]; intros p q Hpq; [reflexivity |].
  rewrite removal_scan_cons in *. cbv zeta in *.
  destruct (answers_equal p (func cb) fn) eqn:Hans; cbn [fst snd] in *.
  - apply IH. exact Hpq.
  - rewrite removal_scan_cons. cbv zeta.
    assert (Hq : answers_equal q (func cb) fn = false).
    { apply (answers_equal_later (p := p)); [| exact Hans].
      intros Hp. apply Hpq. apply removal_scan_stays_pending.
      apply pending_after_stays. exact Hp. }
    rewrite Hq. simpl.
    rewrite IH; [reflexivity |].
    intros Hend. apply pending_after_stays. apply Hpq. exact Hend.
Qed.

(** A registry none of whose entries compares equal to [f], followed by
    an entry for [f] itself: the scan takes out that entry alone. *)
Lemma removal_scan_last (f ctx : PyObject) (l : list PyGIAsyncCallback) :
  forall p,
    (forall cb, In cb l -> compares_equal (func cb) f = false) ->
    fst (removal_scan f p (l ++ [mkCallback f ctx])) = (l, [mkCallback f ctx]).
Proof.
  induction l as [| cb rest IH]; intros p Hfresh.
  - simpl. unfold answers_equal. simpl. rewrite same_object_refl. reflexivity.
  - simpl app. rewrite removal_scan_cons. cbv zeta.
    assert (Hans : answers_equal p (func cb) f = false).
    { destruct (answers_equal p (func cb) f) eqn:Hans; [| reflexivity].
      apply answers_equal_compares_equal in Hans.
      rewrite (Hfresh cb) in Hans by (left; reflexivity). discriminate. }
    rewrite Hans. simpl.
    rewrite IH by (intros cb' Hin; apply Hfresh; right; exact Hin).
    reflexivity.
Qed.

(** The loop of [remove_done_callback] is the scan: what it returns, what
    it leaves pending, and what it does to the interpreter -- nothing is
    scheduled, and the references released are those of the entries taken
    out, in order. *)
Lemma remove_done_callback_loop_scan (fn : PyObject)
    (arr : list PyGIAsyncCallback) (i : nat) (removed : Z) (st : Interp) :
  exists st',
    remove_done_callback_loop fn arr i removed st
    = Done (firstn i arr
              ++ fst (fst (removal_scan fn (is_pending st) (skipn i arr))),
            (removed
             + Z.of_nat (List.length
                           (snd (fst (removal_scan fn (is_pending st)
                                        (skipn i arr))))))%Z)
        st'
    /\ is_pending st' = snd (removal_scan fn (is_pending st) (skipn i arr))
    /\ ready st' = ready st /\ called st' = called st /\ stderr st' = stderr st
    /\ gilstate st' = gilstate st
    /\ refops st'
       = refops st
         ++ flat_map entry_release
              (snd (fst (removal_scan fn (is_pending st) (skipn i arr)))).
Proof.
  funelim (remove_done_callback_loop fn arr i removed st).
  - exists st.
    rewrite skipn_all2, firstn_all2 by lia. simpl.
    rewrite !app_nil_r, Z.add_0_r. repeat split; reflexivity.
  - lazymatch goal with
    | Hn : nth_error _ _ = None |- _ => apply nth_error_None in Hn; lia
    end.
  - lazymatch goal with
    | Hc : PyObject_RichCompareBool_EQ ?v ?w ?s = Crash _ |- _ =>
        destruct (PyObject_RichCompareBool_EQ_run v w s) as (z & s' & Hz & _);
        rewrite Hz in Hc; discriminate Hc
    end.
  - lazymatch goal with
    | Hn : nth_error _ _ = Some ?cb,
      Hc : PyObject_RichCompareBool_EQ ?v ?w ?s = Done ?r _,
      Hr : Z.eqb ?r 1 = false,
      IH : exists _, _ /\ _ |- _ =>
        destruct (PyObject_RichCompareBool_EQ_run v w s)
          as (z & s' & Hz & Hd & Hp & Hq & Hk & He & Hg & Hf);
        rewrite Hz in Hc; injection Hc as -> ->;
        rewrite Hr in Hd;
        destruct IH as (st' & IH & Hp' & Hq' & Hk' & He' & Hg' & Hf');
        exists st'; rewrite IH;
        rewrite (firstn_S_nth_error _ _ Hn), (nth_error_skipn_cons _ _ Hn);
        rewrite removal_scan_cons; cbv zeta; rewrite <- Hd, <- Hp;
        cbn [fst snd];
        split; [rewrite <- app_assoc; reflexivity |];
        repeat split; try congruence; rewrite Hf', Hf; reflexivity
    end.
  - lazymatch goal with
    | Hn : nth_error _ _ = Some ?cb,
      Hc : PyObject_RichCompareBool_EQ ?v ?w ?s = Done ?r _,
      Hr : Z.eqb ?r 1 = true,
      Hrel : release_callback _ ?s1 = Done _ ?s2,
      IH : exists _, _ /\ _ |- _ =>
        destruct (PyObject_RichCompareBool_EQ_run v w s)
          as (z & s' & Hz & Hd & Hp & Hq & Hk & He & Hg & Hf);
        rewrite Hz in Hc; injection Hc as -> ->;
        rewrite Hr in Hd;
        injection Hrel as _ Hst2;
        assert (Hrelease : is_pending s2 = is_pending s1
                           /\ ready s2 = ready s1 /\ called s2 = called s1
                           /\ stderr s2 = stderr s1 /\ gilstate s2 = gilstate s1
                           /\ refops s2 = refops s1 ++ entry_release cb)
          by (rewrite <- Hst2; unfold entry_release; simpl;
              rewrite <- app_assoc; repeat split);
        destruct Hrelease as (Hp2 & Hq2 & Hk2 & He2 & Hg2 & Hf2);
        destruct IH as (st' & IH & Hp' & Hq' & Hk' & He' & Hg' & Hf');
        exists st'; rewrite IH;
        rewrite firstn_g_array_remove_index, skipn_g_array_remove_index in * by lia;
        rewrite (nth_error_skipn_cons _ _ Hn);
        rewrite removal_scan_cons; cbv zeta; rewrite <- Hd, <- Hp;
        rewrite Hp2 in *;
        cbn [fst snd List.length flat_map];
        split; [f_equal; f_equal; lia |];
        split; [congruence |];
        split; [congruence |]; split; [congruence |]; split; [congruence |];
        split; [congruence |];
        rewrite Hf', Hf2, Hf; rewrite <- !app_assoc; reflexivity
    end.
  - lazymatch goal with
    | Hc : release_callback _ _ = Crash _ |- _ => discriminate Hc
    end.
Qed.

(** A run of [remove_done_callback] on a registry that exists. *)
Lemma async_remove_done_callback_run (self : PyGIAsync) (fn : PyObject)
    (arr : list PyGIAsyncCallback) (st : Interp) :
  callbacks self = Some arr ->
  exists st',
    async_remove_done_callback self fn st
    = Done (Some (PyLong (Z.of_nat
                            (List.length
                               (snd (fst (removal_scan fn (is_pending st) arr)))))),
            set_callbacks (Some (fst (fst (removal_scan fn (is_pending st) arr))))
              self) st'
    /\ is_pending st' = snd (removal_scan fn (is_pending st) arr)
    /\ ready st' = ready st /\ called st' = called st /\ stderr st' = stderr st
    /\ gilstate st' = gilstate st
    /\ refops st'
       = refops st
         ++ flat_map entry_release (snd (fst (removal_scan fn (is_pending st) arr))).
Proof.
  intros Hcbs. unfold async_remove_done_callback. rewrite Hcbs.
  destruct (remove_done_callback_loop_scan fn arr 0 0 st)
    as (st' & Hloop & Hframe).
  rewrite Hloop. exists st'. split; [reflexivity | exact Hframe].
Qed.

Lemma is_pending_false (st : Interp) : is_pending st = false <-> curexc st = None.
Proof.
  unfold is_pending. destruct (curexc st); split; intros Hx;
    try reflexivity; discriminate.
Qed.

(** Whenever the comparison with some registered callback raises,
    [remove_done_callback] returns its count with an error still pending,
    which the interpreter turns into a raise; the entry is still in the
    registry. *)
Lemma async_remove_done_callback_error_pending (self : PyGIAsync)
    (fn : PyObject) (arr : list PyGIAsyncCallback) (st : Interp) :
  callbacks self = Some arr ->
  (exists cb, In cb arr /\ comparison_raises (func cb) fn) ->
  forall r self' st',
    async_remove_done_callback self fn st = Done (r, self') st' ->
    (exists n, r = Some (PyLong n))
    /\ curexc st' <> None
    /\ (exists e, Py_CheckFunctionResult r st' = Raises e)
    /\ forall cb kept,
         In cb arr -> comparison_raises (func cb) fn ->
         callbacks self' = Some kept -> In cb kept.
Proof.
  intros Hcbs Hbad r self' st' Hrun.
  destruct (async_remove_done_callback_run self fn st Hcbs)
    as (st1 & Hrun1 & Hp & _).
  rewrite Hrun1 in Hrun. injection Hrun as <- <- <-.
  rewrite (@removal_scan_raises fn arr (is_pending st) Hbad) in Hp.
  assert (Herr : curexc st1 <> None).
  { intros Hnone. apply is_pending_false in Hnone. congruence. }
  split; [eexists; reflexivity |]. split; [exact Herr |]. split.
  - unfold Py_CheckFunctionResult.
    destruct (curexc st1) as [e |]; [eexists; reflexivity | congruence].
  - intros cb kept Hin Hraise Hkept. simpl in Hkept. injection Hkept as <-.
    apply removal_scan_keeps_raising; assumption.
Qed.


End Removal.


(** Once a comparison has raised, the error stays set, and an entry
    further down whose [__eq__] would answer True is compared with the
    error pending, which fails: it stays in the registry and is not
    counted. *)
Lemma remove_done_callback_after_failed_comparison :
  let self := Scenario.pending Scenario.read_finish
                (Some [mkCallback Scenario.cb_eq_raises Scenario.ctxA;
                       mkCallback Scenario.cb1_twin Scenario.ctxA]) in
  compares_equal (H := Scenario.host) Scenario.cb1_twin Scenario.cb1 = true
  /\ exists st',
       async_remove_done_callback (H := Scenario.host) self Scenario.cb1 Scenario.st0
       = Done (Some (PyLong 0), self) st'
       /\ curexc st' = Some result_with_error_set.
Proof.
  split; [reflexivity |].
  eexists. split; [vm_compute; reflexivity | reflexivity].
Qed.

(** C10 (code defect): when the comparison of a registered callback with
    the argument raises, the entry stays and is not counted, but the error
    is left in the error indicator when the count is returned, so the call
    does not end normally: the interpreter reports SystemError.  Run: a
    registry holding one callback whose [__eq__] raises. *)
Theorem remove_done_callback_leaves_comparison_error_set :
  let self := Scenario.pending Scenario.read_finish
                (Some [mkCallback Scenario.cb_eq_raises Scenario.ctxA]) in
  exists st',
    async_remove_done_callback (H := Scenario.host) self Scenario.cb1 Scenario.st0
    = Done (Some (PyLong 0), self) st'
    /\ curexc st' = Some Scenario.eq_failed
    /\ Py_CheckFunctionResult (Some (PyLong 0)) st'
       = Raises (mkPyErr PyExc_SystemError
                   (Some (PyUnicode "returned a result with an error set"))).
Proof.
  eexists. split; [vm_compute; reflexivity |]. split; reflexivity.
Qed.

(** ** Completion handler *)

Section Completion.
Context `{Host}.

(** An error that is not SystemExit is printed and cleared. *)
Lemma PyErr_PrintEx_reports (e : PyErr) (st : Interp) :
  curexc st = Some e ->
  is_system_exit e = false ->
  PyErr_PrintEx false st
  = Done tt (set_curexc None (set_stderr (stderr st ++ [e]) st)).
Proof.
  unfold PyErr_PrintEx, is_system_exit. intros -> ->. reflexivity.
Qed.

(** SystemExit is not: the process exits. *)
Lemma PyErr_PrintEx_exits (e : PyErr) (st : Interp) :
  curexc st = Some e ->
  is_system_exit e = true ->
  PyErr_PrintEx false st = Crash "Py_Exit".
Proof.
  unfold PyErr_PrintEx, is_system_exit. intros -> ->. reflexivity.
Qed.

(** The drain on a loop that provides [call_soon] and does not ask for an
    exit, entered with no error pending: it returns, no error is pending
    afterwards, the registry entries are all released, and
    [loop.call_soon] is called for every entry in order, whatever the
    earlier calls answered. *)
Lemma notify_callbacks_calls_every_entry (self : PyGIAsync) (l : PyObject)
    (cbs : list PyGIAsyncCallback) (st : Interp) :
  loop self = Some l ->
  provides_call_soon l ->
  loop_never_exits l ->
  curexc st = None ->
  exists st' ops,
    notify_callbacks self cbs st = Done tt st'
    /\ curexc st' = None
    /\ called st'
       = called st
         ++ map (fun cb => mkCall (PyMethod l "call_soon")
                             [func cb; ob_self self] None) cbs
    /\ refops st' = refops st ++ ops
    /\ (forall cb, In cb cbs ->
          In (Decref (func cb)) ops /\ In (Decref (context cb)) ops).
Proof.
  intros Hl Hattr Hquiet. revert st.
  induction cbs as [| cb cbs IH]; intros st Hclean.
  - exists st, []. simpl. rewrite !app_nil_r.
    repeat split; try assumption; try reflexivity; contradiction.
  - simpl. unfold bind at 1. unfold PyErr_Occurred at 1. rewrite Hclean. simpl.
    unfold bind at 1. unfold bind at 1.
    rewrite (call_soon_on_loop _ _ _ Hl Hattr). simpl.
    destruct (loop_call_soon (ready st) _) as [r | e] eqn:Hsched.
    + simpl. unfold bind at 1. simpl. unfold bind at 1. simpl.
      match goal with
      | |- context [notify_callbacks self cbs ?s] =>
          destruct (IH s) as (st' & ops & Hrun & Hc & Hcalled & Hrefs & Hrel);
          [simpl; exact Hclean |]
      end.
      exists st', ([Decref (PyMethod l "call_soon"); Decref r;
                    Decref (func cb); Decref (context cb)] ++ ops).
      split; [exact Hrun |]. split; [exact Hc |].
      split; [rewrite Hcalled; simpl; rewrite <- app_assoc; reflexivity |].
      split; [rewrite Hrefs; simpl; rewrite <- !app_assoc; reflexivity |].
      intros cb' [<- | Hin].
      * split; simpl; auto 6.
      * destruct (Hrel cb' Hin). split; apply in_or_app; right; assumption.
    + rewrite (@PyErr_PrintEx_reports e) by
        (solve [reflexivity | exact (proj1 (proj2 Hquiet) _ _ _ Hsched)]).
      simpl. unfold bind at 1. simpl. unfold bind at 1. simpl.
      match goal with
      | |- context [notify_callbacks self cbs ?s] =>
          destruct (IH s) as (st' & ops & Hrun & Hc & Hcalled & Hrefs & Hrel);
          [reflexivity |]
      end.
      exists st', ([Decref (PyMethod l "call_soon");
                    Decref (func cb); Decref (context cb)] ++ ops).
      split; [exact Hrun |]. split; [exact Hc |].
      split; [rewrite Hcalled; simpl; rewrite <- app_assoc; reflexivity |].
      split; [rewrite Hrefs; simpl; rewrite <- !app_assoc; reflexivity |].
      intros cb' [<- | Hin].
      * split; simpl; auto 6.
      * destruct (Hrel cb' Hin). split; apply in_or_app; right; assumption.
Qed.


(** The end of the handler, after the state of the future is set. *)
Lemma finish_drains_registry (self : PyGIAsync) (l : PyObject) (st : Interp) :
  loop self = Some l ->
  provides_call_soon l ->
  loop_never_exits l ->
  curexc st = None ->
  exists st',
    (match callbacks self with
     | Some cbs => notify_callbacks self cbs
     | None => ret tt
     end ;;;
     Py_DECREF (ob_self (set_callbacks None self)) ;;;
     PyGILState_Release ;;;
     ret (set_callbacks None self)) st
    = Done (set_callbacks None self) st'
    /\ curexc st' = None.
Proof.
  intros Hl Hattr Hquiet Hclean. unfold bind at 1.
  destruct (callbacks self) as [cbs |].
  - destruct (notify_callbacks_calls_every_entry self cbs st Hl Hattr Hquiet Hclean)
      as (st1 & ops & Hrun & Hc & _).
    rewrite Hrun. eexists. split; [reflexivity | exact Hc].
  - eexists. split; [reflexivity | exact Hclean].
Qed.

(** When the finish function returns a value and leaves no error, the
    handler stores that value as the result. *)
Lemma finish_cb_stores_result (source_object : option nat) (res : nat)
    (self : PyGIAsync) (f l v : PyObject) (st : Interp) :
  initialized st = true ->
  curexc st = None ->
  finish_func self = Some f ->
  loop self = Some l ->
  provides_call_soon l ->
  loop_never_exits l ->
  g_callable_info_invoke f (finish_args source_object res) = (Some v, None) ->
  exists st',
    pygi_async_finish_cb source_object res self st
    = Done (set_callbacks None (set_result (Some v) self)) st'.
Proof.
  intros Hinit Hclean Hf Hl Hattr Hquiet Hinv.
  unfold pygi_async_finish_cb. unfold bind at 1.
  unfold PyGILState_Ensure at 1. rewrite Hinit. simpl.
  unfold bind at 1. simpl. rewrite Hinit. simpl.
  unfold bind at 1. rewrite Hf. unfold _wrap_g_callable_info_invoke.
  fold (finish_args source_object res). rewrite Hinv.
  unfold bind at 1. simpl. unfold bind at 1.
  destruct (Py_XDECREF (option_map pygobject_new_full source_object) _)
    as [[] st1 |] eqn:Hx;
    [| destruct source_object; discriminate Hx].
  assert (Hc1 : curexc st1 = None).
  { destruct source_object; simpl in Hx; injection Hx as <-; exact Hclean. }
  unfold bind at 1. unfold PyErr_Occurred at 1. rewrite Hc1.
  unfold bind at 1. unfold ret at 1.
  destruct (finish_drains_registry (set_result (Some v) self) (l := l) st1)
    as (st' & Hrun & _); [exact Hl | exact Hattr | exact Hquiet | exact Hc1 |].
  exists st'. exact Hrun.
Qed.

(** What the call that makes the instance amounts to. *)
Lemma exception_call (cls : string) (value : option PyObject) (s : Interp) :
  (match value with
   | Some v => PyObject_CallFunction (PyType cls) "O" [v]
   | None => PyObject_CallFunction (PyType cls) "" []
   end) s
  = of_result (tp_call (PyType cls) (exception_args value))
      (set_called (called s ++ [mkCall (PyType cls) (exception_args value) None]) s).
Proof.
  destruct value as [v |]; unfold PyObject_CallFunction, exception_args; simpl;
    unfold PyObject_Call; reflexivity.
Qed.

(** The error branch when the class can be instantiated: the instance is
    stored, the error indicator is clear, and the one call made is the
    call of the class. *)
Lemma store_exception_stores (self : PyGIAsync) (r : option PyObject)
    (cls : string) (value : option PyObject) (inst : PyObject) (st : Interp) :
  curexc st = Some (mkPyErr (PyType cls) value) ->
  tp_call (PyType cls) (exception_args value) = Ok inst ->
  exists st',
    store_exception self r st = Done (set_exception (Some inst) self) st'
    /\ curexc st' = None
    /\ called st' = called st ++ [mkCall (PyType cls) (exception_args value) None]
    /\ ready st' = ready st /\ stderr st' = stderr st
    /\ gilstate st' = gilstate st /\ initialized st' = initialized st.
Proof.
  intros Hc Hnew. unfold store_exception.
  unfold bind at 1. unfold PyErr_Fetch at 1. rewrite Hc.
  cbn [ptype pvalue]. unfold bind at 1.
  destruct (Py_XDECREF r _) as [[] s1 |] eqn:Hx1;
    [| destruct r; discriminate Hx1].
  unfold bind at 1. rewrite exception_call, Hnew. unfold of_result.
  destruct r as [r0 |], value as [v |]; simpl in Hx1; injection Hx1 as <-;
    unfold bind, ret, Py_XDECREF, Py_DECREF; cbn [set_exception];
    eexists; (split; [reflexivity |]); simpl; repeat split.
Qed.

(** The error branch when it cannot: the fallback makes no instance
    either, and the assertion fails. *)
Lemma store_exception_asserts (self : PyGIAsync) (r : option PyObject)
    (cls : string) (value : option PyObject) (e : PyErr) (st : Interp) :
  curexc st = Some (mkPyErr (PyType cls) value) ->
  tp_call (PyType cls) (exception_args value) = Raise e ->
  store_exception self r st = Crash "g_assert (exc_val)".
Proof.
  intros Hc Hnew. unfold store_exception.
  unfold bind at 1. unfold PyErr_Fetch at 1. rewrite Hc.
  cbn [ptype pvalue]. unfold bind at 1.
  destruct (Py_XDECREF r _) as [[] s1 |] eqn:Hx1;
    [| destruct r; discriminate Hx1].
  unfold bind at 1. rewrite exception_call, Hnew. reflexivity.
Qed.

(** When the finish function leaves an error whose class can be
    instantiated from the raised value, the handler stores the instance as
    the exception. *)
Lemma finish_cb_stores_exception (source_object : option nat) (res : nat)
    (self : PyGIAsync) (f l inst : PyObject) (cls : string)
    (value : option PyObject) (st : Interp) :
  initialized st = true ->
  finish_func self = Some f ->
  loop self = Some l ->
  provides_call_soon l ->
  loop_never_exits l ->
  g_callable_info_invoke f (finish_args source_object res)
  = (None, Some (mkPyErr (PyType cls) value)) ->
  tp_call (PyType cls) (exception_args value) = Ok inst ->
  exists st',
    pygi_async_finish_cb source_object res self st
    = Done (set_callbacks None (set_exception (Some inst) self)) st'.
Proof.
  intros Hinit Hf Hl Hattr Hquiet Hinv Hnew.
  unfold pygi_async_finish_cb. unfold bind at 1.
  unfold PyGILState_Ensure at 1. rewrite Hinit. simpl.
  unfold bind at 1. simpl. rewrite Hinit. simpl.
  unfold bind at 1. rewrite Hf. unfold _wrap_g_callable_info_invoke.
  fold (finish_args source_object res). rewrite Hinv.
  unfold bind at 1. simpl. unfold bind at 1.
  destruct (Py_XDECREF (option_map pygobject_new_full source_object) _)
    as [[] st1 |] eqn:Hx;
    [| destruct source_object; discriminate Hx].
  assert (Hc1 : curexc st1 = Some (mkPyErr (PyType cls) value)).
  { destruct source_object; simpl in Hx; injection Hx as <-; reflexivity. }
  unfold bind at 1. unfold PyErr_Occurred at 1. rewrite Hc1.
  unfold bind at 1.
  destruct (@store_exception_stores self None cls value inst st1 Hc1 Hnew)
    as (st2 & Hstore & Hc2 & _).
  rewrite Hstore.
  destruct (finish_drains_registry (set_exception (Some inst) self) (l := l) st2)
    as (st' & Hrun & _); [exact Hl | exact Hattr | exact Hquiet | exact Hc2 |].
  exists st'. exact Hrun.
Qed.

(** The message of the fallback call sits in the format position; it is
    not a format, so nothing is called and the result is NULL. *)
Lemma fallback_call_returns_null (callable : PyObject) (st : Interp) :
  PyObject_CallFunction callable
    "Invalid exception from _finish function call!" [] st
  = Done None
      (set_curexc
         (Some (mkPyErr PyExc_SystemError
                  (Some (PyUnicode "bad format char passed to Py_BuildValue"))))
         st).
Proof. reflexivity. Qed.

(** When the class cannot be instantiated, the fallback does not produce
    an instance either and the handler stops at its assertion. *)
Lemma finish_cb_fallback_asserts (source_object : option nat) (res : nat)
    (self : PyGIAsync) (f : PyObject) (cls : string)
    (value : option PyObject) (e : PyErr) (st : Interp) :
  initialized st = true ->
  finish_func self = Some f ->
  g_callable_info_invoke f (finish_args source_object res)
  = (None, Some (mkPyErr (PyType cls) value)) ->
  tp_call (PyType cls) (exception_args value) = Raise e ->
  pygi_async_finish_cb source_object res self st = Crash "g_assert (exc_val)".
Proof.
  intros Hinit Hf Hinv Hnew.
  unfold pygi_async_finish_cb. unfold bind at 1.
  unfold PyGILState_Ensure at 1. rewrite Hinit. simpl.
  unfold bind at 1. simpl. rewrite Hinit. simpl.
  unfold bind at 1. rewrite Hf. unfold _wrap_g_callable_info_invoke.
  fold (finish_args source_object res). rewrite Hinv.
  unfold bind at 1. simpl. unfold bind at 1.
  destruct (Py_XDECREF (option_map pygobject_new_full source_object) _)
    as [[] st1 |] eqn:Hx;
    [| destruct source_object; discriminate Hx].
  assert (Hc1 : curexc st1 = Some (mkPyErr (PyType cls) value)).
  { destruct source_object; simpl in Hx; injection Hx as <-; reflexivity. }
  unfold bind at 1. unfold PyErr_Occurred at 1. rewrite Hc1.
  unfold bind at 1.
  rewrite (@store_exception_asserts self None cls value e st1 Hc1 Hnew).
  reflexivity.
Qed.

End Completion.

(** C1 (code defect): a failed [call_soon] is reported with
    [PyErr_PrintEx], which also clears the error indicator, so the test
    [!PyErr_Occurred ()] of the next round succeeds and the next callback
    is scheduled all the same.  Run: a registry of two callbacks of which
    the loop refuses the first; the refusal is reported, the second
    callback is in the ready queue, both entries are released and the
    registry is gone. *)
Theorem notify_continues_after_call_soon_failure :
  let self := Scenario.pending Scenario.read_finish
                (Some [mkCallback Scenario.cb_refused Scenario.ctxA;
                       mkCallback Scenario.cb2 Scenario.ctxA]) in
  exists self' st',
    pygi_async_finish_cb (H := Scenario.host) None 5 self Scenario.st0
    = Done self' st'
    /\ stderr st' = [Scenario.refused]
    /\ ready st'
       = [mkHandle Scenario.the_loop Scenario.cb2 [Scenario.the_future] None]
    /\ callbacks self' = None
    /\ curexc st' = None
    /\ refops st'
       = [Decref (PyHeap 1005);
          Decref (PyMethod Scenario.the_loop "call_soon");
          Decref Scenario.cb_refused; Decref Scenario.ctxA;
          Decref (PyMethod Scenario.the_loop "call_soon");
          Decref (PyHeap 400);
          Decref Scenario.cb2; Decref Scenario.ctxA;
          Decref Scenario.the_future].
Proof.
  do 2 eexists. split; [vm_compute; reflexivity |].
  repeat split.
Qed.

(** C2 (code defect): when the class of the error cannot be instantiated,
    the fallback passes its message where [PyObject_CallFunction] expects
    a format, no TypeError instance is made, and the handler ends in
    [g_assert (exc_val)], before any exception is stored.  Run: a finish
    function that raises a UnicodeDecodeError instance.  The other two
    cases of the handler, a returned value and an error that can be
    instantiated, store the result and the exception. *)
Theorem finish_cb_fallback_makes_no_type_error :
  pygi_async_finish_cb (H := Scenario.host) None 5
    (Scenario.pending Scenario.decode_finish None) Scenario.st0
  = Crash "g_assert (exc_val)"
  /\ (exists st',
         pygi_async_finish_cb (H := Scenario.host) None 5
           (Scenario.pending Scenario.read_finish None) Scenario.st0
         = Done Scenario.resolved st')
  /\ (exists st',
         pygi_async_finish_cb (H := Scenario.host) None 5
           (Scenario.pending Scenario.failing_finish None) Scenario.st0
         = Done Scenario.rejected st').
Proof.
  split; [vm_compute; reflexivity |].
  split; eexists; vm_compute; reflexivity.
Qed.

(** ** Construction *)

Section Construction.
Context `{Host}.

(** What a successful parse stored: a finish function, and the supplied
    token if there was one. *)
Lemma parse_init_ok (self self0 self1 : PyGIAsync) (args : list PyObject)
    (kwargs : PyDict) :
  parse_init self args kwargs = (Ok self0, self1) ->
  self1 = self0
  /\ cancellable self0
     = match PyDict_GetItemString kwargs "cancellable" with
       | Some c => Some c
       | None => cancellable self
       end.
Proof.
  unfold parse_init. cbv zeta.
  parse_init_cases; intros Hp; try discriminate Hp;
    injection Hp as <- <-; split; reflexivity.
Qed.

(** A supplied token that is not a GObject never passes the parse. *)
Lemma parse_init_rejects_non_gobject (self : PyGIAsync) (args : list PyObject)
    (kwargs : PyDict) (c : PyObject) :
  PyDict_GetItemString kwargs "cancellable" = Some c ->
  PyObject_TypeCheck c PyGObject_Type = false ->
  exists msg self1,
    parse_init self args kwargs
    = (Raise (mkPyErr PyExc_TypeError (Some (PyUnicode msg))), self1).
Proof.
  intros Hc Ht. unfold parse_init. cbv zeta. rewrite Hc, Ht.
  parse_init_cases; eexists _, _; reflexivity.
Qed.

(** A keyword that is not known is rejected last: the finish function
    has been stored by then. *)
Lemma parse_init_unknown_keyword (self : PyGIAsync) (f v : PyObject)
    (key : string) :
  PyObject_TypeCheck f PyGICallableInfo_Type = true ->
  String.eqb key "finish_func" = false ->
  String.eqb key "cancellable" = false ->
  exists msg,
    parse_init self [f] [(key, v)]
    = (Raise (mkPyErr PyExc_TypeError (Some (PyUnicode msg))),
       set_finish_func (Some f) self).
Proof.
  intros Hf Hk1 Hk2. unfold parse_init. cbv zeta. simpl.
  rewrite Hf, Hk1, Hk2. simpl. eexists. reflexivity.
Qed.

(** A call without arguments is always the host's. *)
Lemma PyObject_CallObject_no_args (callable : PyObject) (st : Interp) :
  PyObject_CallObject callable None st
  = of_result (tp_call callable [])
      (set_called (called st ++ [mkCall callable [] None]) st).
Proof.
  unfold PyObject_CallObject, PyObject_Call. destruct callable; reflexivity.
Qed.

(** C8: with [Gio.Cancellable] resolved, a supplied token is checked
    against it: a token that is not even a GObject, or that is not an
    instance of [Gio.Cancellable], makes [__init__] fail with TypeError,
    and a token that is an instance is kept; when no token is supplied to
    a new object, [Gio.Cancellable] is called with no arguments and the
    object it returns becomes the token. *)
Theorem async_init_checks_cancellable (self : PyGIAsync) (args : list PyObject)
    (kwargs : PyDict) (info : PyObject) (st st1 : Interp) :
  resolve_cancellable_info st = Done (Some info) st1 ->
  (forall c,
      PyDict_GetItemString kwargs "cancellable" = Some c ->
      PyObject_TypeCheck c PyGObject_Type = false ->
      exists msg self' st',
        async_init self args kwargs st = Done ((-1)%Z, self') st'
        /\ curexc st' = Some (mkPyErr PyExc_TypeError (Some (PyUnicode msg))))
  /\ (forall self0 c,
        parse_init self args kwargs = (Ok self0, self0) ->
        PyDict_GetItemString kwargs "cancellable" = Some c ->
        tp_isinstance c info = Ok false ->
        exists st',
          async_init self args kwargs st = Done ((-1)%Z, self0) st'
          /\ curexc st'
             = Some (mkPyErr PyExc_TypeError
                       (Some (PyUnicode
                                "cancellable argument needs to be of type Gio.Cancellable"))))
  /\ (forall self0 c,
        parse_init self args kwargs = (Ok self0, self0) ->
        PyDict_GetItemString kwargs "cancellable" = Some c ->
        tp_isinstance c info = Ok true ->
        exists r self' st',
          async_init self args kwargs st = Done (r, self') st'
          /\ cancellable self' = Some c
          /\ called st' = called st1 ++ [mkCall asyncio_get_event_loop [] None])
  /\ (forall self0,
        parse_init self args kwargs = (Ok self0, self0) ->
        PyDict_GetItemString kwargs "cancellable" = None ->
        cancellable self = None ->
        exists r self' st',
          async_init self args kwargs st = Done (r, self') st'
          /\ cancellable self'
             = match tp_call info [] with
               | Ok token => Some token
               | Raise _ => None
               end
          /\ called st'
             = called st1 ++ [mkCall info [] None;
                              mkCall asyncio_get_event_loop [] None]).
Proof.
  intros Hres.
  split; [| split; [| split]].
  - intros c Hc Ht.
    destruct (parse_init_rejects_non_gobject self args kwargs Hc Ht)
      as (msg & self1 & Hp).
    unfold async_init. rewrite Hp. eexists msg, _, _. split; reflexivity.
  - intros self0 c Hp Hc Hinst.
    destruct (parse_init_ok self args kwargs Hp) as [_ Hcanc]. rewrite Hc in Hcanc.
    unfold async_init. rewrite Hp. unfold bind at 1. rewrite Hres.
    rewrite Hcanc. unfold bind at 1. unfold bind at 1.
    unfold PyObject_IsInstance. rewrite Hinst. simpl.
    eexists. split; reflexivity.
  - intros self0 c Hp Hc Hinst.
    destruct (parse_init_ok self args kwargs Hp) as [_ Hcanc]. rewrite Hc in Hcanc.
    unfold async_init. rewrite Hp. unfold bind at 1. rewrite Hres.
    rewrite Hcanc. unfold bind at 1. unfold bind at 1.
    unfold PyObject_IsInstance. rewrite Hinst.
    cbv beta iota. change (Z.eqb 1 (-1)) with false. change (Z.eqb 1 0) with false.
    cbv beta iota. unfold ret at 1. unfold bind at 1.
    rewrite PyObject_CallObject_no_args. unfold of_result.
    destruct (tp_call asyncio_get_event_loop []);
      eexists _, _, _; (split; [reflexivity |]); split;
      solve [reflexivity | exact Hcanc].
  - intros self0 Hp Hc Hfresh.
    destruct (parse_init_ok self args kwargs Hp) as [_ Hcanc]. rewrite Hc, Hfresh in Hcanc.
    unfold async_init. rewrite Hp. unfold bind at 1. rewrite Hres.
    rewrite Hcanc. unfold bind at 1. unfold bind at 1.
    rewrite PyObject_CallObject_no_args. unfold of_result.
    destruct (tp_call info []) as [token | e];
      unfold ret at 1; unfold bind at 1;
      rewrite PyObject_CallObject_no_args; unfold of_result;
      destruct (tp_call asyncio_get_event_loop []);
      eexists _, _, _; (split; [reflexivity |]); split;
      simpl; rewrite <- ?app_assoc; reflexivity.
Qed.

End Construction.

Lemma async_init_checks_cancellable_witness :
  resolve_cancellable_info (H := Scenario.host) Scenario.st0
  = Done (Some Scenario.Cancellable) Scenario.st_resolved
  /\ (exists st',
         async_init (H := Scenario.host) Scenario.allocated
           [Scenario.read_finish] [("cancellable", Scenario.a_gobject)] Scenario.st0
         = Done ((-1)%Z,
                 set_cancellable (Some Scenario.a_gobject)
                   (set_finish_func (Some Scenario.read_finish) Scenario.allocated))
             st'
         /\ curexc st'
            = Some (mkPyErr PyExc_TypeError
                      (Some (PyUnicode
                               "cancellable argument needs to be of type Gio.Cancellable"))))
  /\ (exists r self' st',
         async_init (H := Scenario.host) Scenario.allocated
           [Scenario.read_finish] [] Scenario.st0
         = Done (r, self') st'
         /\ cancellable self' = Some Scenario.fresh_cancellable
         /\ called st'
            = [mkCall Scenario.Cancellable [] None;
               mkCall asyncio_get_event_loop [] None]).
Proof.
  split; [reflexivity |]. split.
  - exact (proj1 (proj2 (@async_init_checks_cancellable Scenario.host
                           Scenario.allocated [Scenario.read_finish]
                           [("cancellable", Scenario.a_gobject)]
                           Scenario.Cancellable Scenario.st0 Scenario.st_resolved
                           eq_refl))
             _ Scenario.a_gobject eq_refl eq_refl eq_refl).
  - exact (proj2 (proj2 (proj2 (@async_init_checks_cancellable Scenario.host
                                  Scenario.allocated [Scenario.read_finish] []
                                  Scenario.Cancellable Scenario.st0
                                  Scenario.st_resolved eq_refl)))
             _ eq_refl eq_refl eq_refl).
Defined.

(** * Further properties of the code *)

Lemma bind_Done_inv {A B : Type} (m : Py A) (k : A -> Py B) (st st' : Interp) (b : B) :
  bind m k st = Done b st' ->
  exists a st1, m st = Done a st1 /\ k a st1 = Done b st'.
Proof.
  unfold bind. destruct (m st) as [a st1 |]; [| discriminate].
  intros Hk. exists a, st1. split; [reflexivity | exact Hk].
Qed.

Section Frames.
Context `{Host}.

(** What a return of [call_soon] leaves behind: the lock count and the
    error report untouched, references only added to the log, and NULL
    exactly with an error pending. *)
Lemma call_soon_returns (self : PyGIAsync) (cb : PyGIAsyncCallback)
    (r : option PyObject) (st st' : Interp) :
  call_soon self cb st = Done r st' ->
  gilstate st' = gilstate st
  /\ stderr st' = stderr st
  /\ initialized st' = initialized st
  /\ (exists ops, refops st' = refops st ++ ops)
  /\ match r with
     | None => curexc st' <> None
     | Some _ => curexc st' = curexc st
     end.
Proof.
  unfold call_soon, bind, PyObject_GetAttrString, of_result.
  destruct (loop self) as [l |]; [| discriminate].
  destruct (tp_getattr l "call_soon") as [meth | e].
  - unfold PyObject_Call, Py_BuildValue_OO, Py_CLEAR, of_result. simpl.
    destruct meth; simpl;
      try (destruct (tp_call _ _); intros Hr; injection Hr as <- <-; simpl;
           repeat split; try discriminate; eexists; reflexivity).
    destruct (String.eqb im_name "call_soon").
    + destruct (loop_call_soon _ _); intros Hr; injection Hr as <- <-; simpl;
        repeat split; try discriminate; eexists; reflexivity.
    + destruct (tp_call _ _); intros Hr; injection Hr as <- <-; simpl;
        repeat split; try discriminate; eexists; reflexivity.
  - intros Hr. injection Hr as <- <-. simpl.
    repeat split; try discriminate. exists []. rewrite app_nil_r. reflexivity.
Qed.

Lemma call_soon_total (self : PyGIAsync) (cb : PyGIAsyncCallback)
    (l : PyObject) (st : Interp) :
  loop self = Some l ->
  exists r st', call_soon self cb st = Done r st'.
Proof.
  intros Hl. unfold call_soon, bind, PyObject_GetAttrString, of_result.
  rewrite Hl. destruct (tp_getattr l "call_soon") as [meth | e].
  - unfold PyObject_Call, Py_BuildValue_OO, Py_CLEAR, of_result. simpl.
    destruct meth; simpl;
      try (destruct (tp_call _ _); eexists _, _; reflexivity).
    destruct (String.eqb im_name "call_soon").
    + destruct (loop_call_soon _ _); eexists _, _; reflexivity.
    + destruct (tp_call _ _); eexists _, _; reflexivity.
  - eexists _, _; reflexivity.
Qed.


(** One round of the drain started with no error pending. *)
Lemma notify_round (self : PyGIAsync) (cb : PyGIAsyncCallback)
    (rest : list PyGIAsyncCallback) (st st' : Interp) :
  curexc st = None ->
  notify_callbacks self (cb :: rest) st = Done tt st' ->
  exists r st1 st2,
    call_soon self cb st = Done r st1
    /\ curexc st2 = None
    /\ gilstate st2 = gilstate st1
    /\ initialized st2 = initialized st1
    /\ refops st2
       = refops st1 ++ (match r with Some h => [Decref h] | None => [] end)
           ++ entry_release cb
    /\ stderr st2
       = stderr st1 ++ (match r, curexc st1 with
                        | None, Some e => [e]
                        | _, _ => []
                        end)
    /\ ready st2 = ready st1
    /\ called st2 = called st1
    /\ notify_callbacks self rest st2 = Done tt st'.
Proof.
  intros Hclean Hrun. simpl in Hrun.
  unfold bind at 1 in Hrun. unfold PyErr_Occurred at 1 in Hrun.
  rewrite Hclean in Hrun. simpl in Hrun.
  apply bind_Done_inv in Hrun. destruct Hrun as ([] & sa & Hcall & Hrun).
  apply bind_Done_inv in Hcall. destruct Hcall as (r & st1 & Hcall & Hrep).
  exists r, st1.
  destruct (@call_soon_returns self cb _ _ _ Hcall) as (_ & _ & _ & _ & Herr).
  unfold bind in Hrun. simpl in Hrun.
  destruct r as [h |].
  - injection Hrep as <-. rewrite Hclean in Herr.
    match type of Hrun with
    | notify_callbacks _ _ ?s = _ => exists s
    end.
    repeat split; try exact Hrun; simpl; try assumption.
    + rewrite <- !app_assoc. reflexivity.
    + rewrite app_nil_r. reflexivity.
  - unfold PyErr_PrintEx in Hrep.
    destruct (curexc st1) as [e |] eqn:He; [| congruence].
    destruct (PyErr_GivenExceptionMatches _ _); [discriminate Hrep |].
    injection Hrep as <-.
    match type of Hrun with
    | notify_callbacks _ _ ?s = _ => exists s
    end.
    repeat split; try exact Hrun; try exact Hcall; simpl; try reflexivity.
    rewrite <- !app_assoc. reflexivity.
Qed.

Lemma released_app (o : PyObject) (a b : list RefOp) :
  released o (a ++ b) = released o a + released o b.
Proof. unfold released. apply count_occ_app. Qed.

Lemma released_entry (o : PyObject) (cb : PyGIAsyncCallback) :
  released o (entry_release cb) = owned o [cb].
Proof.
  unfold released, owned, entry_release. simpl.
  destruct (PyObject_eq_dec (func cb) o) as [Hf | Hf],
           (PyObject_eq_dec (context cb) o) as [Hc | Hc];
    destruct (RefOp_eq_dec (Decref (func cb)) (Decref o)) as [Hf' | Hf'],
             (RefOp_eq_dec (Decref (context cb)) (Decref o)) as [Hc' | Hc'];
    try reflexivity; congruence.
Qed.

Lemma owned_cons (o : PyObject) (cb : PyGIAsyncCallback)
    (cbs : list PyGIAsyncCallback) :
  owned o (cb :: cbs) = owned o [cb] + owned o cbs.
Proof.
  unfold owned.
  change (flat_map (fun cb0 => [func cb0; context cb0]) (cb :: cbs))
    with ([func cb; context cb]
            ++ flat_map (fun cb0 => [func cb0; context cb0]) cbs).
  rewrite count_occ_app. reflexivity.
Qed.

(** The drain, whatever the loop answers: when it returns, no error is
    pending, the lock count is as before, and the references released
    cover, for every object, the references the registry owned to it. *)
Lemma notify_callbacks_returns (self : PyGIAsync) (cbs : list PyGIAsyncCallback) :
  forall st st',
    curexc st = None ->
    notify_callbacks self cbs st = Done tt st' ->
    curexc st' = None
    /\ gilstate st' = gilstate st
    /\ initialized st' = initialized st
    /\ exists ops,
         refops st' = refops st ++ ops
         /\ forall o, owned o cbs <= released o ops.
Proof.
  induction cbs as [| cb rest IH]; intros st st' Hclean Hrun.
  - injection Hrun as <-. repeat split; try assumption.
    exists []. rewrite app_nil_r. split; [reflexivity |].
    intros o. unfold owned. simpl. lia.
  - destruct (@notify_round self cb rest st st' Hclean Hrun)
      as (r & st1 & st2 & Hcall & Hc2 & Hg2 & Hi2 & Hr2 & _ & _ & _ & Hrest).
    destruct (@call_soon_returns self cb _ _ _ Hcall) as (Hg1 & _ & Hi1 & (ops1 & Hr1) & _).
    destruct (IH st2 st' Hc2 Hrest) as (Hc & Hg & Hi & ops & Hr & Hrel).
    split; [exact Hc |]. split; [congruence |]. split; [congruence |].
    exists (ops1 ++ (match r with Some h => [Decref h] | None => [] end)
              ++ entry_release cb ++ ops).
    split.
    + rewrite Hr, Hr2, Hr1. rewrite <- !app_assoc. reflexivity.
    + intros o. rewrite owned_cons, !released_app, released_entry.
      specialize (Hrel o). lia.
Qed.

(** A refusal of the loop is an error of its own making. *)
Lemma call_soon_refusal (self : PyGIAsync) (cb : PyGIAsyncCallback)
    (l : PyObject) (st st1 : Interp) :
  loop self = Some l ->
  loop_never_exits l ->
  call_soon self cb st = Done None st1 ->
  exists e, curexc st1 = Some e /\ is_system_exit e = false.
Proof.
  intros Hl (Hlookup & Hsched & Hcall).
  unfold call_soon, bind, PyObject_GetAttrString, of_result. rewrite Hl.
  destruct (tp_getattr l "call_soon") as [meth | e] eqn:Hattr.
  - unfold PyObject_Call, Py_BuildValue_OO, Py_CLEAR, of_result, ret. simpl.
    destruct meth; simpl;
      try (destruct (tp_call _ _) as [v | e] eqn:Hc; intros Hr;
           [discriminate Hr | injection Hr as <-];
           exists e; split; [reflexivity | exact (Hcall _ _ _ eq_refl Hc)]).
    destruct (String.eqb im_name "call_soon").
    + destruct (loop_call_soon _ _) as [v | e] eqn:Hs; intros Hr;
        [discriminate Hr | injection Hr as <-].
      exists e. split; [reflexivity | exact (Hsched _ _ _ Hs)].
    + destruct (tp_call _ _) as [v | e] eqn:Hc; intros Hr;
        [discriminate Hr | injection Hr as <-].
      exists e. split; [reflexivity | exact (Hcall _ _ _ eq_refl Hc)].
  - intros Hr. injection Hr as <-. exists e.
    split; [reflexivity | exact (Hlookup _ eq_refl)].
Qed.

(** On a loop that does not ask for an exit the drain always returns. *)
Lemma notify_callbacks_total (self : PyGIAsync) (l : PyObject)
    (cbs : list PyGIAsyncCallback) :
  loop self = Some l ->
  loop_never_exits l ->
  forall st, exists st', notify_callbacks self cbs st = Done tt st'.
Proof.
  intros Hl Hquiet. induction cbs as [| cb rest IH]; intros st.
  - exists st. reflexivity.
  - simpl. unfold bind at 1. unfold PyErr_Occurred at 1.
    destruct (curexc st) as [e |]; simpl.
    + unfold bind at 1. simpl. unfold bind at 1. simpl. unfold bind at 1. simpl.
      apply IH.
    + unfold bind at 1. unfold bind at 1.
      destruct (call_soon_total self cb st Hl) as (r & st1 & Hcall).
      rewrite Hcall.
      destruct r as [h |]; simpl.
      * unfold bind at 1. simpl. unfold bind at 1. simpl. apply IH.
      * destruct (@call_soon_refusal self cb l st st1 Hl Hquiet Hcall)
          as (e & He & Hexit).
        rewrite (@PyErr_PrintEx_reports _ e st1 He Hexit).
        unfold bind at 1; simpl; unfold bind at 1; simpl; apply IH.
Qed.

(** The calls made are only ever added to. *)
Lemma call_soon_called (self : PyGIAsync) (cb : PyGIAsyncCallback)
    (r : option PyObject) (st st' : Interp) :
  call_soon self cb st = Done r st' ->
  exists more, called st' = called st ++ more.
Proof.
  unfold call_soon, bind, PyObject_GetAttrString, of_result.
  destruct (loop self) as [l |]; [| discriminate].
  destruct (tp_getattr l "call_soon") as [meth | e].
  - unfold PyObject_Call, Py_BuildValue_OO, Py_CLEAR, of_result. simpl.
    destruct meth; simpl;
      try (destruct (tp_call _ _); intros Hr; injection Hr as <- <-; simpl;
           eexists; reflexivity).
    destruct (String.eqb im_name "call_soon").
    + destruct (loop_call_soon _ _); intros Hr; injection Hr as <- <-; simpl;
        eexists; reflexivity.
    + destruct (tp_call _ _); intros Hr; injection Hr as <- <-; simpl;
        eexists; reflexivity.
  - intros Hr. injection Hr as <- <-. exists []. rewrite app_nil_r. reflexivity.
Qed.

Lemma notify_callbacks_called (self : PyGIAsync) (cbs : list PyGIAsyncCallback) :
  forall st st',
    curexc st = None ->
    notify_callbacks self cbs st = Done tt st' ->
    exists more, called st' = called st ++ more.
Proof.
  induction cbs as [| cb rest IH]; intros st st' Hclean Hrun.
  - injection Hrun as <-. exists []. rewrite app_nil_r. reflexivity.
  - destruct (@notify_round self cb rest st st' Hclean Hrun)
      as (r & st1 & st2 & Hcall & Hc2 & _ & _ & _ & _ & _ & Hk2 & Hrest).
    destruct (@call_soon_called self cb _ _ _ Hcall) as (more1 & Hk1).
    destruct (IH st2 st' Hc2 Hrest) as (more & Hk).
    exists (more1 ++ more). rewrite Hk, Hk2, Hk1, app_assoc. reflexivity.
Qed.

End Frames.

Section Handler.
Context `{Host}.

Lemma Py_XDECREF_returns (o : option PyObject) (u : unit) (st st' : Interp) :
  Py_XDECREF o st = Done u st' ->
  curexc st' = curexc st
  /\ gilstate st' = gilstate st
  /\ initialized st' = initialized st
  /\ refops st'
     = refops st ++ (match o with Some p => [Decref p] | None => [] end).
Proof.
  destruct o as [p |]; intros Hr; inversion Hr; subst; simpl;
    repeat split; try reflexivity.
  rewrite app_nil_r. reflexivity.
Qed.

(** What a call through [PyObject_CallFunction] leaves behind. *)
Lemma PyObject_CallFunction_returns (callable : PyObject) (format : string)
    (cargs : list PyObject) (r : option PyObject) (st st' : Interp) :
  PyObject_CallFunction callable format cargs st = Done r st' ->
  gilstate st' = gilstate st
  /\ initialized st' = initialized st
  /\ refops st' = refops st
  /\ match r with
     | Some _ => curexc st' = curexc st
     | None => curexc st' <> None
     end.
Proof.
  assert (Hcall : forall args kwargs s,
             PyObject_Call callable args kwargs s = Done r st' ->
             gilstate st' = gilstate s
             /\ initialized st' = initialized s
             /\ refops st' = refops s
             /\ match r with
                | Some _ => curexc st' = curexc s
                | None => curexc st' <> None
                end).
  { intros args kwargs s. unfold PyObject_Call, of_result.
    destruct callable; simpl;
      try (destruct (tp_call _ _); intros Hr; injection Hr as <- <-; simpl;
           repeat split; discriminate).
    destruct args as [| cb rest].
    - destruct (tp_call _ _); intros Hr; injection Hr as <- <-; simpl;
        repeat split; discriminate.
    - destruct (String.eqb im_name "call_soon").
      + destruct (loop_call_soon _ _); intros Hr; injection Hr as <- <-; simpl;
          repeat split; discriminate.
      + destruct (tp_call _ _); intros Hr; injection Hr as <- <-; simpl;
          repeat split; discriminate. }
  unfold PyObject_CallFunction. destruct format as [| c format'].
  - apply Hcall.
  - destruct (Py_VaBuildStack _ _) as [stack | e].
    + apply Hcall.
    + unfold of_result. intros Hr. injection Hr as <- <-. simpl.
      repeat split; discriminate.
Qed.

(** The error branch of the handler, when it returns: an instance was
    made and stored, and no error is pending. *)
Lemma store_exception_returns (self self' : PyGIAsync) (r : option PyObject)
    (st st' : Interp) :
  store_exception self r st = Done self' st' ->
  exists inst ops,
    self' = set_exception (Some inst) self
    /\ curexc st' = None
    /\ gilstate st' = gilstate st
    /\ initialized st' = initialized st
    /\ refops st' = refops st ++ ops.
Proof.
  unfold store_exception. intros Hrun.
  apply bind_Done_inv in Hrun. destruct Hrun as (fetched & s1 & Hf & Hrun).
  unfold PyErr_Fetch in Hf. injection Hf as <- <-.
  destruct (curexc st) as [e |]; [| discriminate].
  apply bind_Done_inv in Hrun. destruct Hrun as ([] & s2 & Hx & Hrun).
  apply Py_XDECREF_returns in Hx. destruct Hx as (Hc2 & Hg2 & Hi2 & Hr2).
  simpl in Hc2, Hg2, Hi2, Hr2.
  apply bind_Done_inv in Hrun. destruct Hrun as (exc_val & s3 & Hnew & Hrun).
  assert (Hnew' : PyObject_CallFunction (ptype e)
                    (match pvalue e with Some _ => "O" | None => "" end)
                    (match pvalue e with Some v => [v] | None => [] end) s2
                  = Done exc_val s3)
    by (destruct (pvalue e); exact Hnew).
  apply PyObject_CallFunction_returns in Hnew'.
  destruct Hnew' as (Hg3 & Hi3 & Hr3 & Hc3).
  apply bind_Done_inv in Hrun. destruct Hrun as (exc_val' & s4 & Hfb & Hrun).
  destruct exc_val as [inst |].
  - injection Hfb as <- <-.
    apply bind_Done_inv in Hrun. destruct Hrun as ([] & s5 & Hx5 & Hrun).
    apply Py_XDECREF_returns in Hx5. destruct Hx5 as (Hc5 & Hg5 & Hi5 & Hr5).
    apply bind_Done_inv in Hrun. destruct Hrun as ([] & s6 & Hx6 & Hrun).
    apply Py_XDECREF_returns in Hx6. destruct Hx6 as (Hc6 & Hg6 & Hi6 & Hr6).
    apply bind_Done_inv in Hrun. destruct Hrun as ([] & s7 & Hx7 & Hrun).
    apply Py_XDECREF_returns in Hx7. destruct Hx7 as (Hc7 & Hg7 & Hi7 & Hr7).
    injection Hrun as <- <-.
    exists inst. eexists. split; [reflexivity |].
    split; [congruence |]. split; [congruence |]. split; [congruence |].
    rewrite Hr7, Hr6, Hr5, Hr3, Hr2. rewrite <- !app_assoc. reflexivity.
  - rewrite fallback_call_returns_null in Hfb. injection Hfb as <- <-.
    discriminate Hrun.
Qed.


(** Every return of the handler on a live interpreter, taken apart. *)
Lemma finish_cb_returns (source_object : option nat) (res : nat)
    (self self' : PyGIAsync) (f : PyObject) (st st' : Interp) :
  initialized st = true ->
  finish_func self = Some f ->
  pygi_async_finish_cb source_object res self st = Done self' st' ->
  exists self1 ops,
    self' = set_callbacks None self1
    /\ curexc st' = None
    /\ gilstate st' = gilstate st
    /\ refops st' = refops st ++ ops
    /\ (forall cbs o, callbacks self = Some cbs -> owned o cbs <= released o ops)
    /\ ((curexc st = None
         /\ snd (g_callable_info_invoke f (finish_args source_object res)) = None
         /\ self1
            = set_result
                (fst (g_callable_info_invoke f (finish_args source_object res)))
                self)
        \/ ((curexc st <> None
             \/ snd (g_callable_info_invoke f (finish_args source_object res))
                <> None)
            /\ exists inst, self1 = set_exception (Some inst) self)).
Proof.
  intros Hinit Hf Hrun. unfold pygi_async_finish_cb in Hrun.
  apply bind_Done_inv in Hrun. destruct Hrun as ([] & s0 & H0 & Hrun).
  unfold PyGILState_Ensure in H0. rewrite Hinit in H0. injection H0 as <-.
  apply bind_Done_inv in Hrun. destruct Hrun as (alive & s1 & H1 & Hrun).
  injection H1 as <- <-. simpl in Hrun. rewrite Hinit in Hrun. simpl in Hrun.
  apply bind_Done_inv in Hrun. destruct Hrun as (r & s2 & Hinv & Hrun).
  rewrite Hf in Hinv. unfold _wrap_g_callable_info_invoke in Hinv.
  fold (finish_args source_object res) in Hinv.
  destruct (g_callable_info_invoke f (finish_args source_object res))
    as [r0 e] eqn:Hi.
  injection Hinv as <- <-.
  apply bind_Done_inv in Hrun. destruct Hrun as ([] & s3 & Hx3 & Hrun).
  apply (@Py_XDECREF_returns (Some _)) in Hx3.
  destruct Hx3 as (Hc3 & Hg3 & Hi3 & Hr3).
  apply bind_Done_inv in Hrun. destruct Hrun as ([] & s4 & Hx4 & Hrun).
  apply Py_XDECREF_returns in Hx4. destruct Hx4 as (Hc4 & Hg4 & Hi4 & Hr4).
  apply bind_Done_inv in Hrun. destruct Hrun as (occurred & s5 & Ho & Hrun).
  injection Ho as <- <-.
  apply bind_Done_inv in Hrun. destruct Hrun as (self1 & s6 & Hstore & Hrun).
  apply bind_Done_inv in Hrun. destruct Hrun as ([] & s7 & Hnot & Hrun).
  apply bind_Done_inv in Hrun. destruct Hrun as ([] & s8 & Hd & Hrun).
  injection Hd as <-.
  apply bind_Done_inv in Hrun. destruct Hrun as ([] & s9 & Hrel & Hrun).
  injection Hrel as <-. injection Hrun as <- <-.
  assert (Hentry : curexc s4
                   = match e with Some _ => e | None => curexc st end).
  { rewrite Hc4, Hc3. destruct e; reflexivity. }
  assert (Hsettled : exists ops6,
             curexc s6 = None /\ gilstate s6 = gilstate s4
             /\ refops s6 = refops s4 ++ ops6
             /\ callbacks self1 = callbacks self
             /\ ((curexc st = None /\ e = None /\ self1 = set_result r0 self)
                 \/ ((curexc st <> None \/ e <> None)
                     /\ exists inst, self1 = set_exception (Some inst) self))).
  { destruct (curexc s4) as [pending |] eqn:Hpending.
    - destruct (@store_exception_returns self self1 r0 s4 s6 Hstore)
        as (inst & ops6 & -> & Hc6 & Hg6 & _ & Hr6).
      exists ops6. repeat split; try assumption.
      right. split; [| exists inst; reflexivity].
      destruct e; [right; discriminate | left; congruence].
    - injection Hstore as <- <-.
      exists []. rewrite app_nil_r. repeat split; try assumption.
      left. destruct e; [discriminate |]. repeat split. symmetry. exact Hentry. }
  destruct Hsettled as (ops6 & Hc6 & Hg6 & Hr6 & Hcbs & Hcase).
  assert (Hdrained : exists ops7,
             curexc s7 = None /\ gilstate s7 = gilstate s6
             /\ refops s7 = refops s6 ++ ops7
             /\ forall cbs o, callbacks self = Some cbs ->
                  owned o cbs <= released o ops7).
  { rewrite <- Hcbs. destruct (callbacks self1) as [cbs |].
    - destruct (@notify_callbacks_returns _ self1 cbs s6 s7 Hc6 Hnot)
        as (Hc7 & Hg7 & _ & ops7 & Hr7 & Hrel7).
      exists ops7. split; [exact Hc7 |]. split; [exact Hg7 |].
      split; [exact Hr7 |].
      intros cbs' o Heq. injection Heq as <-. exact (Hrel7 o).
    - injection Hnot as <-. exists []. rewrite app_nil_r.
      split; [exact Hc6 |]. split; [reflexivity |]. split; [reflexivity |].
      intros cbs' o Heq. discriminate Heq. }
  destruct Hdrained as (ops7 & Hc7 & Hg7 & Hr7 & Hrel7).
  exists self1.
  exists ([Decref (pygobject_new_full res)]
            ++ (match option_map pygobject_new_full source_object with
                | Some p => [Decref p]
                | None => []
                end)
            ++ ops6 ++ ops7 ++ [Decref (ob_self self1)]).
  split; [reflexivity |]. simpl.
  split; [exact Hc7 |].
  split; [rewrite Hg7, Hg6, Hg4, Hg3; destruct e; reflexivity |].
  split; [rewrite Hr7, Hr6, Hr4, Hr3; destruct e; simpl;
          rewrite <- !app_assoc; reflexivity |].
  split.
  - intros cbs o Heq. specialize (Hrel7 cbs o Heq).
    change (Decref (pygobject_new_full res) :: ?l)
      with ([Decref (pygobject_new_full res)] ++ l).
    rewrite !released_app. lia.
  - simpl. exact Hcase.
Qed.

End Handler.

Section Completed.
Context `{Host}.

(** The handler on an interpreter that is no longer initialized. *)
Lemma finish_cb_when_down (source_object : option nat) (res : nat)
    (self : PyGIAsync) (st : Interp) :
  initialized st = false ->
  pygi_async_finish_cb source_object res self st
  = if finalized st then Crash "PyGILState_Ensure: no thread state"
    else Done self st.
Proof.
  intros Hdown. unfold pygi_async_finish_cb, bind, PyGILState_Ensure,
    Py_IsInitialized, PyGILState_Release, ret.
  rewrite Hdown. destruct (finalized st) eqn:Hgone; simpl; [reflexivity |].
  rewrite Hdown. simpl. destruct st; simpl in *; subst; reflexivity.
Qed.


(** X2: a pending future completed on a live interpreter with no error
    pending ends in exactly one state: resolved with the value the finish
    function returned, or rejected with an exception instance when the
    finish function left an error -- never with both a result and an
    exception; [done ()] is then True.  Only a finish function that returns
    NULL without an error leaves it pending. *)
Theorem finish_cb_settles_pending_future (source_object : option nat) (res : nat)
    (self self' : PyGIAsync) (f : PyObject) (st st' : Interp) :
  Pending self ->
  initialized st = true ->
  curexc st = None ->
  finish_func self = Some f ->
  pygi_async_finish_cb source_object res self st = Done self' st' ->
  match g_callable_info_invoke f (finish_args source_object res) with
  | (Some v, None) => Resolved self' v /\ async_done self' = PyBool true
  | (None, None) => Pending self'
  | (_, Some _) =>
      exists inst, Rejected self' inst /\ async_done self' = PyBool true
  end.
Proof.
  intros [Hres Hexc] Hinit Hclean Hf Hrun.
  destruct (@finish_cb_returns _ source_object res self self' f st st' Hinit Hf Hrun)
    as (self1 & ops & -> & _ & _ & _ & _ & Hcase).
  destruct (g_callable_info_invoke f (finish_args source_object res)) as [r e].
  simpl in Hcase.
  destruct Hcase as [(_ & -> & ->) | ([Hbad | He] & inst & ->)].
  - destruct r as [v |]; unfold Resolved, Pending, async_done, is_done; simpl;
      rewrite ?Hexc; repeat split; reflexivity.
  - congruence.
  - destruct e as [e |]; [| congruence].
    destruct r; exists inst; unfold Rejected, async_done, is_done; simpl;
      rewrite Hres; repeat split; reflexivity.
Qed.

(** X3: whenever the handler returns, the lock count is what it was; on a
    live interpreter it also leaves no error pending and a future whose
    registry is gone and whose identity, finish function, cancellable,
    loop and blocking flag are untouched. *)
Theorem finish_cb_leaves_interpreter_clean (source_object : option nat)
    (res : nat) (self self' : PyGIAsync) (st st' : Interp) :
  pygi_async_finish_cb source_object res self st = Done self' st' ->
  gilstate st' = gilstate st
  /\ (initialized st = true ->
      curexc st' = None
      /\ callbacks self' = None
      /\ ob_self self' = ob_self self
      /\ finish_func self' = finish_func self
      /\ cancellable self' = cancellable self
      /\ loop self' = loop self
      /\ _asyncio_future_blocking self' = _asyncio_future_blocking self).
Proof.
  intros Hrun. destruct (initialized st) eqn:Hinit.
  - destruct (finish_func self) as [f |] eqn:Hf.
    + destruct (@finish_cb_returns _ source_object res self self' f st st' Hinit Hf Hrun)
        as (self1 & ops & -> & Hc & Hg & _ & _ & Hcase).
      split; [exact Hg |]. intros _. split; [exact Hc |].
      destruct Hcase as [(_ & _ & ->) | (_ & inst & ->)];
        repeat split; try reflexivity; simpl; exact Hf.
    + unfold pygi_async_finish_cb, bind, PyGILState_Ensure, Py_IsInitialized in Hrun.
      rewrite Hinit in Hrun. simpl in Hrun. rewrite Hinit, Hf in Hrun.
      discriminate Hrun.
  - rewrite (finish_cb_when_down source_object res self st Hinit) in Hrun.
    destruct (finalized st); [discriminate Hrun |].
    injection Hrun as <- <-. split; [reflexivity | discriminate].
Qed.

(** X4: when the handler returns on a live interpreter, every reference
    the registry held has been released, whatever the finish function and
    the loop answered: an object is released at least as often as there
    are entries that hold it as their callback plus entries that hold it
    as their context. *)
Theorem finish_cb_releases_registry (source_object : option nat) (res : nat)
    (self self' : PyGIAsync) (f : PyObject) (cbs : list PyGIAsyncCallback)
    (st st' : Interp) :
  initialized st = true ->
  finish_func self = Some f ->
  callbacks self = Some cbs ->
  pygi_async_finish_cb source_object res self st = Done self' st' ->
  exists ops,
    refops st' = refops st ++ ops
    /\ forall o, owned o cbs <= released o ops.
Proof.
  intros Hinit Hf Hcbs Hrun.
  destruct (@finish_cb_returns _ source_object res self self' f st st' Hinit Hf Hrun)
    as (self1 & ops & _ & _ & _ & Hr & Hrel & _).
  exists ops. split; [exact Hr |].
  intros o. exact (Hrel cbs o Hcbs).
Qed.

End Completed.

Section Order.
Context `{Host}.

(** On a loop that accepts every callback, the drain appends one handle
    per entry to the ready queue, in the order of the registry, and
    reports nothing. *)
Lemma notify_callbacks_in_order (self : PyGIAsync) (l : PyObject)
    (cbs : list PyGIAsyncCallback) :
  loop self = Some l ->
  provides_call_soon l ->
  accepts_all ->
  forall st,
    curexc st = None ->
    exists st',
      notify_callbacks self cbs st = Done tt st'
      /\ ready st' = ready st ++ map (handle_of l self) cbs
      /\ stderr st' = stderr st
      /\ curexc st' = None.
Proof.
  intros Hl Hattr Hall.
  induction cbs as [| cb rest IH]; intros st Hclean.
  - exists st. simpl. rewrite app_nil_r. repeat split; assumption.
  - simpl. unfold bind at 1. unfold PyErr_Occurred at 1. rewrite Hclean. simpl.
    unfold bind at 1. unfold bind at 1.
    rewrite (call_soon_on_loop self cb st Hl Hattr). simpl.
    destruct (Hall (ready st) (mkHandle l (func cb) [ob_self self] None))
      as (r & Hr).
    rewrite Hr. simpl. unfold bind at 1. simpl. unfold bind at 1. simpl.
    match goal with
    | |- context [notify_callbacks self rest ?s] =>
        destruct (IH s) as (st' & Hrun & Hq & He & Hc); [exact Hclean |]
    end.
    exists st'. split; [exact Hrun |]. simpl in Hq, He.
    split; [rewrite Hq, <- app_assoc; reflexivity |].
    split; [exact He | exact Hc].
Qed.

(** X5: when the finish function returns a value and the loop accepts
    every callback, completion puts the registered callbacks into the
    loop's ready queue in registration order, once each and with the
    future as their argument; nothing is reported as failed. *)
Theorem finish_cb_schedules_in_registration_order (source_object : option nat)
    (res : nat) (self : PyGIAsync) (f l v : PyObject)
    (cbs : list PyGIAsyncCallback) (st : Interp) :
  initialized st = true ->
  curexc st = None ->
  finish_func self = Some f ->
  loop self = Some l ->
  provides_call_soon l ->
  accepts_all ->
  callbacks self = Some cbs ->
  g_callable_info_invoke f (finish_args source_object res) = (Some v, None) ->
  exists st',
    pygi_async_finish_cb source_object res self st
    = Done (set_callbacks None (set_result (Some v) self)) st'
    /\ ready st' = ready st ++ map (handle_of l self) cbs
    /\ stderr st' = stderr st.
Proof.
  intros Hinit Hclean Hf Hl Hattr Hall Hcbs Hinv.
  unfold pygi_async_finish_cb. unfold bind at 1.
  unfold PyGILState_Ensure at 1. rewrite Hinit. simpl.
  unfold bind at 1. simpl. rewrite Hinit. simpl.
  unfold bind at 1. rewrite Hf. unfold _wrap_g_callable_info_invoke.
  fold (finish_args source_object res). rewrite Hinv.
  unfold bind at 1. simpl. unfold bind at 1.
  destruct (Py_XDECREF (option_map pygobject_new_full source_object) _)
    as [[] st1 |] eqn:Hx;
    [| destruct source_object; discriminate Hx].
  assert (Hst1 : curexc st1 = None /\ ready st1 = ready st
                 /\ stderr st1 = stderr st).
  { destruct source_object; simpl in Hx; injection Hx as <-;
      repeat split; assumption. }
  destruct Hst1 as (Hc1 & Hq1 & He1).
  unfold bind at 1. unfold PyErr_Occurred at 1. rewrite Hc1.
  unfold bind at 1. unfold ret at 1.
  unfold bind at 1.
  change (callbacks (set_result (Some v) self)) with (callbacks self).
  rewrite Hcbs.
  destruct (@notify_callbacks_in_order (set_result (Some v) self) l cbs
              Hl Hattr Hall st1 Hc1) as (st2 & Hrun & Hq2 & He2 & _).
  rewrite Hrun. eexists. split; [reflexivity |]. simpl.
  split; [rewrite Hq2, Hq1; reflexivity | rewrite He2, He1; reflexivity].
Qed.

End Order.

Section RegistryExtras.
Context `{Host}.


(** X7: removing the same callback a second time finds nothing: it
    returns 0 and leaves the registry as the first removal left it. *)
Theorem async_remove_done_callback_twice (self self1 : PyGIAsync)
    (fn : PyObject) (r1 : option PyObject) (st st1 : Interp) :
  async_remove_done_callback self fn st = Done (r1, self1) st1 ->
  exists self2 st2,
    async_remove_done_callback self1 fn st1 = Done (Some (PyLong 0), self2) st2
    /\ callbacks self2 = callbacks self1
    /\ refops st2 = refops st1.
Proof.
  intros Hfirst.
  destruct (callbacks self) as [arr |] eqn:Hcbs.
  - destruct (async_remove_done_callback_run self fn st Hcbs)
      as (st' & Hrun & Hp & _).
    rewrite Hrun in Hfirst. injection Hfirst as _ <- <-.
    destruct (async_remove_done_callback_run
                (set_callbacks
                   (Some (fst (fst (removal_scan fn (is_pending st) arr)))) self)
                fn st' eq_refl)
      as (st2 & Hrun2 & _ & _ & _ & _ & _ & Hr2).
    assert (Hagain : fst (removal_scan fn (is_pending st')
                            (fst (fst (removal_scan fn (is_pending st) arr))))
                     = (fst (fst (removal_scan fn (is_pending st) arr)), [])).
    { apply removal_scan_again. intros Hend. rewrite Hp. exact Hend. }
    rewrite Hagain in Hrun2, Hr2. simpl in Hrun2, Hr2.
    eexists _, st2. split; [exact Hrun2 |].
    split; [reflexivity | rewrite Hr2, app_nil_r; reflexivity].
  - unfold async_remove_done_callback in Hfirst. rewrite Hcbs in Hfirst.
    injection Hfirst as _ <- <-.
    unfold async_remove_done_callback. rewrite Hcbs.
    eexists _, _. split; [reflexivity |]. split; [exact Hcbs | reflexivity].
Qed.

(** X8: registering a callback on a pending future and removing it again
    gives the registry back: the removal returns 1, the entries that were
    there (none of which compares equal to the callback) are all still
    there in order, and the references released are the two the
    registration took. *)
Theorem add_then_remove_done_callback (self : PyGIAsync) (args : list PyObject)
    (kwargs : PyDict) (f : PyObject) (c : option PyObject) (st : Interp) :
  parse_add_done_callback args kwargs = Ok (f, c) ->
  is_done self = false ->
  (forall cb, In cb (match callbacks self with Some arr => arr | None => [] end) ->
     compares_equal (func cb) f = false) ->
  exists self1 st1 self2 st2,
    async_add_done_callback self args kwargs st = Done (Some Py_None, self1) st1
    /\ async_remove_done_callback self1 f st1 = Done (Some (PyLong 1), self2) st2
    /\ callbacks self2
       = Some (match callbacks self with Some arr => arr | None => [] end)
    /\ refops st2
       = refops st1
         ++ [Decref f;
             Decref (match c with
                     | Some x => x
                     | None => PyContext (current_context st)
                     end)].
Proof.
  intros Hparse Hpending Hfresh.
  set (arr := match callbacks self with Some arr => arr | None => [] end) in *.
  set (ctx := match c with Some x => x | None => PyContext (current_context st) end).
  assert (Hadd : exists st1,
             async_add_done_callback self args kwargs st
             = Done (Some Py_None,
                     set_callbacks (Some (arr ++ [mkCallback f ctx])) self) st1).
  { unfold async_add_done_callback. rewrite Hparse.
    destruct c as [x |]; unfold bind; simpl; rewrite Hpending; simpl;
      eexists; reflexivity. }
  destruct Hadd as (st1 & Hadd).
  destruct (async_remove_done_callback_run
              (set_callbacks (Some (arr ++ [mkCallback f ctx])) self) f st1 eq_refl)
    as (st2 & Hrun & _ & _ & _ & _ & _ & Hr).
  rewrite (@removal_scan_last _ f ctx arr (is_pending st1) Hfresh) in Hrun, Hr.
  simpl in Hrun, Hr.
  eexists _, st1, _, st2. split; [exact Hadd |]. split; [exact Hrun |].
  split; [reflexivity | exact Hr].
Qed.

(** X9: [add_done_callback] called with no callback, with more than one
    positional argument, or with a keyword other than [context], fails
    with TypeError before it touches anything: the future, the ready
    queue and the reference counts are as before. *)
Theorem async_add_done_callback_bad_arguments (self : PyGIAsync)
    (args : list PyObject) (kwargs : PyDict) (st : Interp) :
  List.length args <> 1
  \/ (exists kv, In kv kwargs /\ fst kv <> "context") ->
  exists msg,
    async_add_done_callback self args kwargs st
    = Done (None, self)
        (set_curexc (Some (mkPyErr PyExc_TypeError (Some (PyUnicode msg)))) st).
Proof.
  intros Hbad. unfold async_add_done_callback, parse_add_done_callback.
  destruct args as [| f [| g rest]].
  - eexists. reflexivity.
  - destruct Hbad as [Hlen | (kv & Hin & Hkey)]; [simpl in Hlen; congruence |].
    assert (Hex : existsb (fun kv => negb (String.eqb (fst kv) "context")) kwargs
                  = true).
    { apply existsb_exists. exists kv. split; [exact Hin |].
      apply Bool.negb_true_iff. apply String.eqb_neq. exact Hkey. }
    rewrite Hex. eexists. reflexivity.
  - eexists. reflexivity.
Qed.

(** X10: on a future that is done, when the loop has no [call_soon] to
    give, [add_done_callback] fails with the lookup's error; nothing is
    called or scheduled, the registry is untouched, and the references
    taken on the callback and its context have been given back. *)
Theorem async_add_done_callback_without_call_soon (self : PyGIAsync)
    (args : list PyObject) (kwargs : PyDict) (f l : PyObject)
    (c : option PyObject) (e : PyErr) (st : Interp) :
  parse_add_done_callback args kwargs = Ok (f, c) ->
  is_done self = true ->
  loop self = Some l ->
  tp_getattr l "call_soon" = Raise e ->
  exists st',
    async_add_done_callback self args kwargs st = Done (None, self) st'
    /\ curexc st' = Some e
    /\ called st' = called st
    /\ ready st' = ready st
    /\ refops st'
       = refops st
         ++ match c with
            | Some x => [Incref f; Incref x; Decref f; Decref x]
            | None => [Incref f; Decref f; Decref (PyContext (current_context st))]
            end.
Proof.
  intros Hparse Hdone Hl Hattr.
  unfold async_add_done_callback. rewrite Hparse.
  destruct c as [x |]; unfold bind; simpl; rewrite Hdone;
    unfold call_soon, bind, PyObject_GetAttrString, of_result;
    rewrite Hl, Hattr; simpl;
    eexists; (split; [reflexivity |]); simpl;
    rewrite <- ?app_assoc; repeat split.
Qed.

End RegistryExtras.

Section ConstructionExtras.
Context `{Host}.

(** What the argument parse of [__init__] can do to the object. *)
Lemma parse_init_frame (self s : PyGIAsync) (args : list PyObject)
    (kwargs : PyDict) (r : PyResult PyGIAsync) :
  parse_init self args kwargs = (r, s) ->
  ob_self s = ob_self self /\ result s = result self
  /\ exception s = exception self /\ callbacks s = callbacks self
  /\ loop s = loop self
  /\ _asyncio_future_blocking s = _asyncio_future_blocking self
  /\ match r with
     | Ok s0 => s0 = s /\ finish_func s <> None
     | Raise e => ptype e = PyExc_TypeError
     end.
Proof.
  unfold parse_init. cbv zeta.
  parse_init_cases; intros Hp; injection Hp as <- <-; repeat split;
    discriminate.
Qed.

Lemma resolve_cancellable_info_returns (st : Interp) :
  exists info st',
    resolve_cancellable_info st = Done info st'
    /\ match info with
       | Some _ => curexc st' = curexc st
       | None => curexc st' <> None
       end.
Proof.
  unfold resolve_cancellable_info.
  destruct (cancellable_info st) as [c |].
  - exists (Some c), st. split; reflexivity.
  - unfold bind, PyImport_ImportModule, PyObject_GetAttrString, of_result.
    destruct (import_module "gi.repository.Gio") as [gio | e].
    + destruct (tp_getattr gio "Cancellable") as [c | e]; simpl;
        eexists _, _; split; try reflexivity; simpl; discriminate.
    + eexists _, _. split; [reflexivity |]. simpl. discriminate.
Qed.

(** Every run of [__init__], taken apart. *)
Lemma async_init_returns (self : PyGIAsync) (args : list PyObject)
    (kwargs : PyDict) (st : Interp) :
  exists rc self' st',
    async_init self args kwargs st = Done (rc, self') st'
    /\ (rc = 0%Z \/ rc = (-1)%Z)
    /\ (rc = (-1)%Z -> curexc st' <> None)
    /\ (rc = 0%Z -> finish_func self' <> None /\ loop self' <> None)
    /\ ob_self self' = ob_self self
    /\ result self' = result self
    /\ exception self' = exception self
    /\ callbacks self' = callbacks self
    /\ _asyncio_future_blocking self' = _asyncio_future_blocking self.
Proof.
  unfold async_init.
  destruct (parse_init self args kwargs) as [r s] eqn:Hp.
  destruct (parse_init_frame self args kwargs Hp)
    as (Ho & Hr & He & Hc & Hl & Hb & Hres).
  destruct r as [self0 | e].
  - destruct Hres as [-> Hff].
    destruct (resolve_cancellable_info_returns st) as (info & st1 & Hinfo & Herr1).
    unfold bind at 1. rewrite Hinfo.
    destruct info as [info |].
    + unfold bind at 1.
      destruct (cancellable s) as [c |].
      * unfold bind at 1. unfold PyObject_IsInstance.
        destruct (tp_isinstance c info) as [[|] | e]; simpl.
        -- unfold bind at 1. rewrite PyObject_CallObject_no_args. unfold of_result.
           destruct (tp_call asyncio_get_event_loop []) as [l | e]; simpl;
             eexists _, _, _; (split; [reflexivity |]); simpl;
             repeat split; auto; try discriminate;
             try (intros Hx; discriminate Hx).
        -- eexists _, _, _; (split; [reflexivity |]); simpl;
             repeat split; auto; try discriminate;
             try (intros Hx; discriminate Hx).
        -- eexists _, _, _; (split; [reflexivity |]); simpl;
             repeat split; auto; try discriminate;
             try (intros Hx; discriminate Hx).
      * unfold bind at 1. rewrite PyObject_CallObject_no_args. unfold of_result.
        destruct (tp_call info []) as [token | e]; simpl;
          unfold bind at 1; rewrite PyObject_CallObject_no_args; unfold of_result;
          destruct (tp_call asyncio_get_event_loop []) as [l | e']; simpl;
          eexists _, _, _; (split; [reflexivity |]); simpl;
          repeat split; auto; try discriminate;
          try (intros Hx; discriminate Hx).
    + eexists _, _, _; (split; [reflexivity |]); simpl.
      repeat split; auto; try discriminate; try (intros Hx; discriminate Hx).
  - eexists _, _, _; (split; [reflexivity |]); simpl.
    repeat split; auto; try discriminate; try (intros Hx; discriminate Hx).
Qed.

End ConstructionExtras.

Section ConstructionTheorems.
Context `{Host}.

(** X11: [__init__] returns 0 or -1; -1 always comes with an error set; 0
    guarantees a finish function and a loop; and no run of it touches the
    result, the exception, the registry or the blocking flag. *)
Theorem async_init_result_code (self : PyGIAsync) (args : list PyObject)
    (kwargs : PyDict) (st : Interp) :
  exists rc self' st',
    async_init self args kwargs st = Done (rc, self') st'
    /\ (rc = 0%Z \/ rc = (-1)%Z)
    /\ (rc = (-1)%Z -> curexc st' <> None)
    /\ (rc = 0%Z -> finish_func self' <> None /\ loop self' <> None)
    /\ result self' = result self
    /\ exception self' = exception self
    /\ callbacks self' = callbacks self
    /\ _asyncio_future_blocking self' = _asyncio_future_blocking self.
Proof.
  destruct (async_init_returns self args kwargs st)
    as (rc & self' & st' & Hrun & Hrc & Herr & Hok & _ & Hr & He & Hc & Hb).
  exists rc, self', st'. repeat split; try assumption; apply Hok; assumption.
Qed.

(** X13: [pygi_async_new] returns NULL only when the allocation failed,
    with MemoryError set and nothing else done; after a successful
    allocation it always returns the object, which is a pending future
    with no registry and the blocking flag clear, whatever [__init__]
    did. *)
Theorem pygi_async_new_returns_pending_future (finish : PyObject) (st : Interp) :
  pygi_async_new None finish st
  = Done None (set_curexc (Some (mkPyErr PyExc_MemoryError None)) st)
  /\ forall a,
       exists self' st',
         pygi_async_new (Some a) finish st = Done (Some self') st'
         /\ ob_self self' = a
         /\ Pending self'
         /\ callbacks self' = None
         /\ _asyncio_future_blocking self' = false.
Proof.
  split; [reflexivity |]. intros a.
  unfold pygi_async_new, tp_alloc. unfold bind at 1. unfold ret at 1.
  destruct (async_init_returns (mkAsync a None None None None None None false)
              (Py_BuildValue_O finish) [] st)
    as (rc & self' & st' & Hrun & _ & _ & _ & Ho & Hr & He & Hc & Hb).
  unfold bind at 1. rewrite Hrun.
  exists self', st'. split; [reflexivity |].
  split; [exact Ho |]. split; [split; assumption |]. split; assumption.
Qed.

(** X14: the result of [__init__] is not looked at: handed something that
    is not a callable info, [pygi_async_new] still returns the object,
    with every field NULL and the TypeError of the parse left pending. *)
Theorem pygi_async_new_ignores_init_failure (a finish : PyObject) (st : Interp) :
  PyObject_TypeCheck finish PyGICallableInfo_Type = false ->
  exists msg,
    pygi_async_new (Some a) finish st
    = Done (Some (mkAsync a None None None None None None false))
        (set_curexc (Some (mkPyErr PyExc_TypeError (Some (PyUnicode msg)))) st).
Proof.
  intros Hbad. unfold pygi_async_new, tp_alloc, bind, ret, async_init, parse_init,
    Py_BuildValue_O.
  simpl. rewrite Hbad. eexists. reflexivity.
Qed.

(** X15: [cancel ()] delegates: it looks up [cancel] on the cancellable,
    calls it once with no arguments, and returns what it returned or
    raised; nothing is scheduled. *)
Theorem async_cancel_delegates (self : PyGIAsync) (c m : PyObject) (st : Interp) :
  cancellable self = Some c ->
  tp_getattr c "cancel" = Ok m ->
  exists r st',
    async_cancel self st = Done r st'
    /\ called st' = called st ++ [mkCall m [] None]
    /\ ready st' = ready st
    /\ match tp_call m [] with
       | Ok v => r = Some v /\ curexc st' = curexc st
       | Raise e => r = None /\ curexc st' = Some e
       end.
Proof.
  intros Hc Hattr.
  unfold async_cancel, PyObject_CallMethod. rewrite Hc.
  unfold bind at 1. unfold PyObject_GetAttrString, of_result. rewrite Hattr.
  unfold bind at 1. unfold PyObject_CallFunction.
  change (PyObject_Call m [] None st) with (PyObject_CallObject m None st).
  rewrite PyObject_CallObject_no_args. unfold of_result.
  destruct (tp_call m []) as [v | e];
    eexists _, _; (split; [reflexivity |]); simpl; repeat split.
Qed.

(** X16: [cancel ()] on an object whose cancellable is NULL calls nothing
    and fails with SystemError. *)
Theorem async_cancel_without_token (self : PyGIAsync) (st : Interp) :
  cancellable self = None ->
  curexc st = None ->
  async_cancel self st
  = Done None
      (set_curexc
         (Some (mkPyErr PyExc_SystemError
                  (Some (PyUnicode "null argument to internal routine")))) st).
Proof.
  intros Hc Hclean. unfold async_cancel, PyObject_CallMethod, null_error.
  rewrite Hc, Hclean. reflexivity.
Qed.

(** X17: [__next__] never ends the iteration of a pending future: however
    often it is called, every call returns the future itself, and the
    error indicator is never set. *)
Theorem async_iternext_pending_never_stops (self : PyGIAsync) (n : nat)
    (st : Interp) :
  Pending self ->
  exists st',
    iternext_times n self st = Done (repeat (Some (ob_self self)) n) st'
    /\ curexc st' = curexc st
    /\ refops st' = refops st ++ repeat (Incref (ob_self self)) n.
Proof.
  intros [Hr He]. revert st.
  induction n as [| n IH]; intros st.
  - exists st. simpl. rewrite app_nil_r. repeat split.
  - simpl. unfold bind at 1. unfold async_iternext. rewrite Hr, He.
    unfold bind at 1. simpl. unfold ret at 1.
    destruct (IH (set_refops (refops st ++ [Incref (ob_self self)]) st))
      as (st' & Hrun & Hc & Hrefs).
    unfold bind at 1. rewrite Hrun.
    exists st'. split; [reflexivity |]. split; [exact Hc |].
    rewrite Hrefs. simpl. rewrite <- app_assoc. reflexivity.
Qed.

End ConstructionTheorems.

Section Totality.
Context `{Host}.

(** X18: short of asking for an exit, a loop that misbehaves cannot make
    the handler fail or lose the result: when the finish function returns
    a value, the handler returns with that value stored and the registry
    gone, whatever the loop's [call_soon] lookup and calls answer, as
    long as none of their errors is SystemExit. *)
Theorem finish_cb_survives_the_loop (source_object : option nat) (res : nat)
    (self : PyGIAsync) (f l v : PyObject) (st : Interp) :
  initialized st = true ->
  curexc st = None ->
  finish_func self = Some f ->
  loop self = Some l ->
  loop_never_exits l ->
  g_callable_info_invoke f (finish_args source_object res) = (Some v, None) ->
  exists self' st',
    pygi_async_finish_cb source_object res self st = Done self' st'
    /\ result self' = Some v
    /\ exception self' = exception self
    /\ callbacks self' = None
    /\ curexc st' = None.
Proof.
  intros Hinit Hclean Hf Hl Hquiet Hinv.
  assert (Hrun : exists self' st',
             pygi_async_finish_cb source_object res self st = Done self' st').
  { unfold pygi_async_finish_cb. unfold bind at 1.
    unfold PyGILState_Ensure at 1. rewrite Hinit. simpl.
    unfold bind at 1. simpl. rewrite Hinit. simpl.
    unfold bind at 1. rewrite Hf. unfold _wrap_g_callable_info_invoke.
    fold (finish_args source_object res). rewrite Hinv.
    unfold bind at 1. simpl. unfold bind at 1.
    destruct (Py_XDECREF (option_map pygobject_new_full source_object) _)
      as [[] st1 |] eqn:Hx;
      [| destruct source_object; discriminate Hx].
    assert (Hc1 : curexc st1 = None).
    { destruct source_object; simpl in Hx; injection Hx as <-; exact Hclean. }
    unfold bind at 1. unfold PyErr_Occurred at 1. rewrite Hc1.
    unfold bind at 1. unfold ret at 1. unfold bind at 1.
    destruct (callbacks (set_result (Some v) self)) as [cbs |].
    - destruct (@notify_callbacks_total _ (set_result (Some v) self) l cbs Hl
                  Hquiet st1)
        as (st2 & Hnot).
      rewrite Hnot. eexists _, _. reflexivity.
    - eexists _, _. reflexivity. }
  destruct Hrun as (self' & st' & Hrun).
  destruct (@finish_cb_returns _ source_object res self self' f st st' Hinit Hf Hrun)
    as (self1 & ops & -> & Hc & _ & _ & _ & Hcase).
  rewrite Hinv in Hcase. simpl in Hcase.
  destruct Hcase as [(_ & _ & ->) | ([Hbad | Hbad] & _)]; try congruence.
  eexists _, st'. split; [exact Hrun |].
  split; [reflexivity |]. split; [reflexivity |]. split; [reflexivity | exact Hc].
Qed.

End Totality.

(** ** The properties above, run on concrete futures *)


Lemma finish_cb_settles_pending_future_witness :
  exists self' st',
    pygi_async_finish_cb (H := Scenario.host) None 5
      (Scenario.pending Scenario.read_finish
         (Some [mkCallback Scenario.cb1 Scenario.ctxA]))
      Scenario.st0
    = Done self' st'
    /\ Resolved self' (PyLong 42) /\ async_done self' = PyBool true.
Proof.
  eassert (Hrun : pygi_async_finish_cb (H := Scenario.host) None 5
                    (Scenario.pending Scenario.read_finish
                       (Some [mkCallback Scenario.cb1 Scenario.ctxA]))
                    Scenario.st0
                  = Done _ _) by (vm_compute; reflexivity).
  eexists _, _. split; [exact Hrun |].
  exact (@finish_cb_settles_pending_future Scenario.host None 5
           (Scenario.pending Scenario.read_finish
              (Some [mkCallback Scenario.cb1 Scenario.ctxA]))
           _ Scenario.read_finish Scenario.st0 _
           (conj eq_refl eq_refl) eq_refl eq_refl eq_refl Hrun).
Defined.

Lemma finish_cb_leaves_interpreter_clean_witness :
  exists self' st',
    pygi_async_finish_cb (H := Scenario.host) None 5
      (Scenario.pending Scenario.failing_finish
         (Some [mkCallback Scenario.cb_refused Scenario.ctxA]))
      Scenario.st0
    = Done self' st'
    /\ gilstate st' = gilstate Scenario.st0
    /\ curexc st' = None
    /\ callbacks self' = None.
Proof.
  eassert (Hrun : pygi_async_finish_cb (H := Scenario.host) None 5
                    (Scenario.pending Scenario.failing_finish
                       (Some [mkCallback Scenario.cb_refused Scenario.ctxA]))
                    Scenario.st0
                  = Done _ _) by (vm_compute; reflexivity).
  destruct (@finish_cb_leaves_interpreter_clean Scenario.host None 5 _ _
              Scenario.st0 _ Hrun)
    as (Hg & Hlive).
  destruct (Hlive eq_refl) as (Hc & Hcbs & _).
  eexists _, _. split; [exact Hrun |].
  split; [exact Hg |]. split; [exact Hc | exact Hcbs].
Defined.

Lemma finish_cb_releases_registry_witness :
  owned Scenario.ctxA [mkCallback Scenario.cb_refused Scenario.ctxA;
                       mkCallback Scenario.cb2 Scenario.ctxA] = 2
  /\ exists self' st' ops,
       pygi_async_finish_cb (H := Scenario.host) None 5
         (Scenario.pending Scenario.read_finish
            (Some [mkCallback Scenario.cb_refused Scenario.ctxA;
                   mkCallback Scenario.cb2 Scenario.ctxA]))
         Scenario.st0
       = Done self' st'
       /\ refops st' = refops Scenario.st0 ++ ops
       /\ 2 <= released Scenario.ctxA ops
       /\ 1 <= released Scenario.cb_refused ops
       /\ 1 <= released Scenario.cb2 ops.
Proof.
  split; [reflexivity |].
  eassert (Hrun : pygi_async_finish_cb (H := Scenario.host) None 5
                   (Scenario.pending Scenario.read_finish
                      (Some [mkCallback Scenario.cb_refused Scenario.ctxA;
                             mkCallback Scenario.cb2 Scenario.ctxA]))
                   Scenario.st0
                 = Done _ _) by (vm_compute; reflexivity).
  destruct (@finish_cb_releases_registry Scenario.host None 5
              (Scenario.pending Scenario.read_finish
                 (Some [mkCallback Scenario.cb_refused Scenario.ctxA;
                        mkCallback Scenario.cb2 Scenario.ctxA]))
              _ Scenario.read_finish
              [mkCallback Scenario.cb_refused Scenario.ctxA;
               mkCallback Scenario.cb2 Scenario.ctxA]
              Scenario.st0 _ eq_refl eq_refl eq_refl Hrun)
    as (ops & Hr & Hrel).
  eexists _, _, ops. split; [exact Hrun |]. split; [exact Hr |].
  split; [exact (Hrel Scenario.ctxA) |].
  split; [exact (Hrel Scenario.cb_refused) | exact (Hrel Scenario.cb2)].
Defined.

Lemma finish_cb_schedules_in_registration_order_witness :
  accepts_all (H := Scenario2.host)
  /\ exists st',
       pygi_async_finish_cb (H := Scenario2.host) None 5
         (Scenario.pending Scenario.read_finish
            (Some [mkCallback Scenario.cb1 Scenario.ctxA;
                   mkCallback Scenario.cb2 Scenario.ctxA]))
         Scenario.st0
       = Done Scenario.resolved st'
       /\ ready st'
          = [mkHandle Scenario.the_loop Scenario.cb1 [Scenario.the_future] None;
             mkHandle Scenario.the_loop Scenario.cb2 [Scenario.the_future] None].
Proof.
  assert (Hall : accepts_all (H := Scenario2.host))
    by (intros q h; eexists; reflexivity).
  split; [exact Hall |].
  destruct (@finish_cb_schedules_in_registration_order Scenario2.host None 5
              (Scenario.pending Scenario.read_finish
                 (Some [mkCallback Scenario.cb1 Scenario.ctxA;
                        mkCallback Scenario.cb2 Scenario.ctxA]))
              Scenario.read_finish Scenario.the_loop (PyLong 42) _ Scenario.st0
              eq_refl eq_refl eq_refl eq_refl eq_refl Hall eq_refl eq_refl)
    as (st' & Hrun & Hq & _).
  exists st'. split; [exact Hrun | exact Hq].
Defined.

(** The loop of the scenario refuses a callback with RuntimeError and
    never asks for an exit. *)
Lemma the_loop_never_exits :
  loop_never_exits (H := Scenario.host) Scenario.the_loop.
Proof.
  split; [| split].
  - intros e He. vm_compute in He. discriminate He.
  - intros q h e. unfold loop_call_soon. simpl.
    destruct (same_object (h_callback h) Scenario.cb_refused);
      intros He; [| discriminate He].
    injection He as <-. reflexivity.
  - intros m args e Hm. vm_compute in Hm. injection Hm as <-.
    intros He. vm_compute in He. injection He as <-. reflexivity.
Qed.

Lemma finish_cb_survives_the_loop_witness :
  loop_never_exits (H := Scenario.host) Scenario.the_loop
  /\ exists self' st',
       pygi_async_finish_cb (H := Scenario.host) None 5
         (Scenario.pending Scenario.read_finish
            (Some [mkCallback Scenario.cb_refused Scenario.ctxA;
                   mkCallback Scenario.cb2 Scenario.ctxA]))
         Scenario.st0
       = Done self' st'
       /\ result self' = Some (PyLong 42)
       /\ callbacks self' = None
       /\ curexc st' = None.
Proof.
  split; [exact the_loop_never_exits |].
  destruct (@finish_cb_survives_the_loop Scenario.host None 5
              (Scenario.pending Scenario.read_finish
                 (Some [mkCallback Scenario.cb_refused Scenario.ctxA;
                        mkCallback Scenario.cb2 Scenario.ctxA]))
              Scenario.read_finish Scenario.the_loop (PyLong 42) Scenario.st0
              eq_refl eq_refl eq_refl eq_refl the_loop_never_exits eq_refl)
    as (self' & st' & Hrun & Hres & _ & Hcbs & Hc).
  exists self', st'. split; [exact Hrun |].
  split; [exact Hres |]. split; [exact Hcbs | exact Hc].
Defined.

(** When the loop answers [call_soon] with SystemExit, the report made
    of it ends the process inside the handler. *)
Lemma finish_cb_exits_with_the_loop :
  pygi_async_finish_cb (H := Scenario2.host_exits) None 5
    (Scenario.pending Scenario.read_finish
       (Some [mkCallback Scenario.cb1 Scenario.ctxA]))
    Scenario.st0
  = Crash "Py_Exit".
Proof. vm_compute. reflexivity. Qed.


Lemma async_remove_done_callback_twice_witness :
  exists self1 st1 self2 st2,
    async_remove_done_callback (H := Scenario.host)
      (Scenario.pending Scenario.read_finish
         (Some [mkCallback Scenario.cb1 Scenario.ctxA;
                mkCallback Scenario.cb2 Scenario.ctxA;
                mkCallback Scenario.cb1_twin Scenario.ctxA]))
      Scenario.cb1 Scenario.st0
    = Done (Some (PyLong 2), self1) st1
    /\ async_remove_done_callback (H := Scenario.host) self1 Scenario.cb1 st1
       = Done (Some (PyLong 0), self2) st2
    /\ callbacks self2 = callbacks self1.
Proof.
  eassert (Hfirst : async_remove_done_callback (H := Scenario.host)
                      (Scenario.pending Scenario.read_finish
                         (Some [mkCallback Scenario.cb1 Scenario.ctxA;
                                mkCallback Scenario.cb2 Scenario.ctxA;
                                mkCallback Scenario.cb1_twin Scenario.ctxA]))
                      Scenario.cb1 Scenario.st0
                    = Done (Some (PyLong 2), _) _) by (vm_compute; reflexivity).
  destruct (@async_remove_done_callback_twice Scenario.host
              (Scenario.pending Scenario.read_finish
                 (Some [mkCallback Scenario.cb1 Scenario.ctxA;
                        mkCallback Scenario.cb2 Scenario.ctxA;
                        mkCallback Scenario.cb1_twin Scenario.ctxA]))
              _ Scenario.cb1 _ Scenario.st0 _ Hfirst)
    as (self2 & st2 & Hsecond & Hsame & _).
  eexists _, _, self2, st2.
  split; [exact Hfirst |]. split; [exact Hsecond | exact Hsame].
Defined.

Lemma add_then_remove_done_callback_witness :
  parse_add_done_callback [Scenario.cb2] [("context", Scenario.ctxA)]
  = Ok (Scenario.cb2, Some Scenario.ctxA)
  /\ exists self1 st1 self2 st2,
       async_add_done_callback (H := Scenario.host)
         (Scenario.pending Scenario.read_finish
            (Some [mkCallback Scenario.cb1 Scenario.ctxA]))
         [Scenario.cb2] [("context", Scenario.ctxA)] Scenario.st0
       = Done (Some Py_None, self1) st1
       /\ async_remove_done_callback (H := Scenario.host) self1 Scenario.cb2 st1
          = Done (Some (PyLong 1), self2) st2
       /\ callbacks self2 = Some [mkCallback Scenario.cb1 Scenario.ctxA].
Proof.
  split; [reflexivity |].
  destruct (@add_then_remove_done_callback Scenario.host
              (Scenario.pending Scenario.read_finish
                 (Some [mkCallback Scenario.cb1 Scenario.ctxA]))
              [Scenario.cb2] [("context", Scenario.ctxA)]
              Scenario.cb2 (Some Scenario.ctxA) Scenario.st0 eq_refl eq_refl)
    as (self1 & st1 & self2 & st2 & Hadd & Hremove & Hcbs & _).
  - intros cb [<- | []]. reflexivity.
  - exists self1, st1, self2, st2.
    split; [exact Hadd |]. split; [exact Hremove | exact Hcbs].
Defined.

Lemma async_add_done_callback_bad_arguments_witness :
  List.length [Scenario.cb1; Scenario.cb2] <> 1
  /\ exists msg,
       async_add_done_callback (H := Scenario.host) Scenario.resolved
         [Scenario.cb1; Scenario.cb2] [] Scenario.st0
       = Done (None, Scenario.resolved)
           (set_curexc (Some (mkPyErr PyExc_TypeError (Some (PyUnicode msg))))
              Scenario.st0).
Proof.
  assert (Hlen : List.length [Scenario.cb1; Scenario.cb2] <> 1)
    by (simpl; discriminate).
  split; [exact Hlen |].
  exact (@async_add_done_callback_bad_arguments Scenario.host Scenario.resolved
           [Scenario.cb1; Scenario.cb2] [] Scenario.st0 (or_introl Hlen)).
Defined.

Lemma async_add_done_callback_without_call_soon_witness :
  is_done Scenario2.on_dead_loop = true
  /\ tp_getattr (Host := Scenario.host) (PyHeap 2) "call_soon"
     = Raise (mkPyErr (PyType "AttributeError") (Some (PyUnicode "call_soon")))
  /\ exists st',
       async_add_done_callback (H := Scenario.host) Scenario2.on_dead_loop
         [Scenario.cb1] [] Scenario.st0
       = Done (None, Scenario2.on_dead_loop) st'
       /\ called st' = [] /\ ready st' = [].
Proof.
  split; [reflexivity |]. split; [reflexivity |].
  destruct (@async_add_done_callback_without_call_soon Scenario.host
              Scenario2.on_dead_loop [Scenario.cb1] [] Scenario.cb1 (PyHeap 2) None
              (mkPyErr (PyType "AttributeError") (Some (PyUnicode "call_soon")))
              Scenario.st0 eq_refl eq_refl eq_refl eq_refl)
    as (st' & Hrun & _ & Hk & Hq & _).
  exists st'. split; [exact Hrun |]. split; [exact Hk | exact Hq].
Defined.

Lemma pygi_async_new_ignores_init_failure_witness :
  PyObject_TypeCheck (H := Scenario.host) Scenario.cb1 PyGICallableInfo_Type = false
  /\ exists msg,
       pygi_async_new (H := Scenario.host) (Some Scenario.the_future)
         Scenario.cb1 Scenario.st0
       = Done (Some Scenario.allocated)
           (set_curexc (Some (mkPyErr PyExc_TypeError (Some (PyUnicode msg))))
              Scenario.st0).
Proof.
  split; [reflexivity |].
  exact (@pygi_async_new_ignores_init_failure Scenario.host Scenario.the_future
           Scenario.cb1 Scenario.st0 eq_refl).
Defined.

Lemma async_cancel_delegates_witness :
  tp_getattr (Host := Scenario2.host) Scenario.a_cancellable "cancel"
  = Ok Scenario2.cancel_method
  /\ exists st',
       async_cancel (H := Scenario2.host) Scenario.resolved Scenario.st0
       = Done (Some Py_None) st'
       /\ called st' = [mkCall Scenario2.cancel_method [] None]
       /\ ready st' = [].
Proof.
  split; [reflexivity |].
  destruct (@async_cancel_delegates Scenario2.host Scenario.resolved
              Scenario.a_cancellable Scenario2.cancel_method Scenario.st0
              eq_refl eq_refl)
    as (r & st' & Hrun & Hk & Hq & Hres).
  simpl in Hres. destruct Hres as [-> _].
  exists st'. split; [exact Hrun |]. split; [exact Hk | exact Hq].
Defined.

Lemma async_cancel_without_token_witness :
  cancellable Scenario.allocated = None
  /\ async_cancel (H := Scenario.host) Scenario.allocated Scenario.st0
     = Done None
         (set_curexc
            (Some (mkPyErr PyExc_SystemError
                     (Some (PyUnicode "null argument to internal routine"))))
            Scenario.st0).
Proof.
  split; [reflexivity |].
  exact (@async_cancel_without_token Scenario.host Scenario.allocated Scenario.st0
           eq_refl eq_refl).
Defined.

Lemma async_iternext_pending_never_stops_witness :
  Pending (Scenario.pending Scenario.read_finish None)
  /\ exists st',
       iternext_times (H := Scenario.host) 3
         (Scenario.pending Scenario.read_finish None) Scenario.st0
       = Done [Some Scenario.the_future; Some Scenario.the_future;
               Some Scenario.the_future] st'
       /\ curexc st' = None.
Proof.
  assert (Hp : Pending (Scenario.pending Scenario.read_finish None))
    by (split; reflexivity).
  split; [exact Hp |].
  destruct (@async_iternext_pending_never_stops Scenario.host
              (Scenario.pending Scenario.read_finish None) 3 Scenario.st0 Hp)
    as (st' & Hrun & Hc & _).
  exists st'. split; [exact Hrun | exact Hc].
Defined.

Section Rejection.
Context `{Host}.

(** X19: when the finish function leaves an error of class [cls], the
    exception the handler stores is what calling [cls] returns: on the
    value of the error, on the items of the value when it is a tuple, on
    no arguments when there is no value.  That call is made once, and the
    handler returns with the error indicator clear, whatever a loop that
    does not ask for an exit then does with the callbacks. *)
Theorem finish_cb_rejects_with_instance (source_object : option nat) (res : nat)
    (self : PyGIAsync) (f l inst : PyObject) (cls : string)
    (value : option PyObject) (st : Interp) :
  initialized st = true ->
  curexc st = None ->
  finish_func self = Some f ->
  loop self = Some l ->
  loop_never_exits l ->
  g_callable_info_invoke f (finish_args source_object res)
  = (None, Some (mkPyErr (PyType cls) value)) ->
  tp_call (PyType cls) (exception_args value) = Ok inst ->
  exists self' st',
    pygi_async_finish_cb source_object res self st = Done self' st'
    /\ exception self' = Some inst
    /\ result self' = result self
    /\ callbacks self' = None
    /\ curexc st' = None
    /\ In (mkCall (PyType cls) (exception_args value) None) (called st').
Proof.
  intros Hinit _ Hf Hl Hquiet Hinv Hnew.
  unfold pygi_async_finish_cb. unfold bind at 1.
  unfold PyGILState_Ensure at 1. rewrite Hinit. simpl.
  unfold bind at 1. simpl. rewrite Hinit. simpl.
  unfold bind at 1. rewrite Hf. unfold _wrap_g_callable_info_invoke.
  fold (finish_args source_object res). rewrite Hinv.
  unfold bind at 1. simpl. unfold bind at 1.
  destruct (Py_XDECREF (option_map pygobject_new_full source_object) _)
    as [[] st1 |] eqn:Hx;
    [| destruct source_object; discriminate Hx].
  assert (Hc1 : curexc st1 = Some (mkPyErr (PyType cls) value)).
  { destruct source_object; simpl in Hx; injection Hx as <-; reflexivity. }
  unfold bind at 1. unfold PyErr_Occurred at 1. rewrite Hc1.
  unfold bind at 1.
  destruct (@store_exception_stores _ self None cls value inst st1 Hc1 Hnew)
    as (st2 & Hstore & Hc2 & Hk2 & _).
  rewrite Hstore.
  assert (Hin2 : In (mkCall (PyType cls) (exception_args value) None) (called st2))
    by (rewrite Hk2; apply in_or_app; right; left; reflexivity).
  unfold bind at 1.
  assert (Hdrain : exists st3,
             (match callbacks self with
              | Some cbs => notify_callbacks (set_exception (Some inst) self) cbs
              | None => ret tt
              end) st2 = Done tt st3
             /\ curexc st3 = None
             /\ exists more, called st3 = called st2 ++ more).
  { destruct (callbacks self) as [cbs |].
    - destruct (@notify_callbacks_total _ (set_exception (Some inst) self) l cbs
                  Hl Hquiet st2) as (st3 & Hnot).
      exists st3. split; [exact Hnot |].
      destruct (@notify_callbacks_returns _ _ cbs st2 st3 Hc2 Hnot)
        as (Hc3 & _).
      split; [exact Hc3 |].
      exact (@notify_callbacks_called _ _ cbs st2 st3 Hc2 Hnot).
    - exists st2. split; [reflexivity |]. split; [exact Hc2 |].
      exists []. rewrite app_nil_r. reflexivity. }
  change (callbacks (set_exception (Some inst) self)) with (callbacks self).
  destruct Hdrain as (st3 & Hnot & Hc3 & more & Hmore).
  rewrite Hnot.
  eexists _, _. split; [reflexivity |]. simpl.
  split; [reflexivity |]. split; [reflexivity |]. split; [reflexivity |].
  split; [exact Hc3 |]. rewrite Hmore. apply in_or_app. left. exact Hin2.
Qed.

End Rejection.

Lemma finish_cb_rejects_with_instance_witness :
  exception_args (Some (PyUnicode "bad")) = [PyUnicode "bad"]
  /\ exception_args (Some (PyTuple [PyLong 2; PyUnicode "bad"]))
     = [PyLong 2; PyUnicode "bad"]
  /\ tp_call (Host := Scenario.host) Scenario.ValueError [PyUnicode "bad"]
     = Ok Scenario.the_value_error
  /\ exists self' st',
       pygi_async_finish_cb (H := Scenario.host) None 5
         (Scenario.pending Scenario.failing_finish None) Scenario.st0
       = Done self' st'
       /\ exception self' = Some Scenario.the_value_error
       /\ curexc st' = None
       /\ In (mkCall Scenario.ValueError [PyUnicode "bad"] None) (called st').
Proof.
  split; [reflexivity |]. split; [reflexivity |]. split; [reflexivity |].
  destruct (@finish_cb_rejects_with_instance Scenario.host None 5
              (Scenario.pending Scenario.failing_finish None)
              Scenario.failing_finish Scenario.the_loop Scenario.the_value_error
              "ValueError" (Some (PyUnicode "bad")) Scenario.st0
              eq_refl eq_refl eq_refl eq_refl the_loop_never_exits eq_refl eq_refl)
    as (self' & st' & Hrun & Hexc & _ & _ & Hc & Hin).
  exists self', st'. split; [exact Hrun |]. split; [exact Hexc |].
  split; [exact Hc | exact Hin].
Defined.
